(** * base-routes: the [handle] / [handleOnce] / [handleError] dispatcher

    A shallow embedding of [index.js].  The JavaScript heap (files, error
    objects, the closure variable of [handleError]) is an explicit state,
    exceptions are a second kind of outcome, and the closures the plugin
    builds are Rocq functions over that state. *)

From Stdlib Require Import String Ascii List Bool Arith ZArith Lia.
From stdpp Require Import base option list gmap strings.

Local Open Scope string_scope.
Local Open Scope list_scope.

(** ** Values *)

(** What a [throw] carries: a [TypeError] made by the engine or by the
    plugin's guard, or the value of a variable ([None] when that variable is
    [undefined] or [null], otherwise an error object of the heap). *)
Inductive exn :=
| TypeError (msg : string)
| Thrown (v : option nat).

(** The three shapes in which the sources call a callback:
    [next()], [next(err)] and [next(null, file)]. *)
Inductive cbargs :=
| Args0
| ArgsErr (err : nat)
| ArgsOk (file : option nat).

(** First parameter of [function(err, file)], when truthy. *)
Definition arg_err (a : cbargs) : option nat :=
  match a with ArgsErr e => Some e | _ => None end.

(** Second parameter of [function(err, file)]. *)
Definition arg_file (a : cbargs) : option nat :=
  match a with ArgsOk f => f | _ => None end.

(** A function of the host application: opaque, observed through the trace,
    and free to throw. *)
Record hostfn := HostFn {
  hf_id : nat;
  hf_throws : cbargs -> option exn
}.

(** Values the host stores in [file.next] or passes where a callback is
    expected. *)
Inductive jsval :=
| JUndefined
| JNull
| JBool (b : bool)
| JNum (n : Z)
| JStr (s : string)
| JObject
| JFunction (h : hostfn).

(** JavaScript truthiness, as used by [||] and [if]. *)
Definition truthy (v : jsval) : bool :=
  match v with
  | JUndefined | JNull => false
  | JBool b => b
  | JNum n => negb (n =? 0)%Z
  | JStr s => negb (String.eqb s EmptyString)
  | JObject | JFunction _ => true
  end.

(** ** Heap objects *)

Module Options.
Record t := mk {
  handled : option (list string);
  method : option string;
  collection : option string
}.
Definition empty : t := mk None None None.
End Options.

Module File.
Record t := mk {
  path : string;
  basename : string;
  content : string;
  data : list (string * string);
  options : option Options.t;
  next : jsval
}.
Definition set_options (o : option Options.t) (fl : t) : t :=
  mk (path fl) (basename fl) (content fl) (data fl) o (next fl).
End File.

Module Err.
Record t := mk {
  _handled : bool;
  stack : option string;
  source : option string;
  reason : option string;
  file : option nat;
  isReferenceError : bool
}.
Definition set_handled (b : bool) (e : t) : t :=
  mk b (stack e) (source e) (reason e) (file e) (isReferenceError e).
Definition set_source (v : string) (e : t) : t :=
  mk (_handled e) (stack e) (Some v) (reason e) (file e) (isReferenceError e).
Definition set_reason (v : string) (e : t) : t :=
  mk (_handled e) (stack e) (source e) (Some v) (file e) (isReferenceError e).
Definition set_file (v : option nat) (e : t) : t :=
  mk (_handled e) (stack e) (source e) (reason e) v (isReferenceError e).
End Err.

(** ** Observable events *)

Inductive payload :=
| PFile (f : nat)
| PErr (e : nat).

Inductive event :=
| EvDebug (method basename : string)
| EvEmit (host name : string) (p : payload)
| EvMiddleware (id : nat) (file : nat)
| EvCall (id : nat) (args : cbargs).

(** ** State and the dispatcher monad *)

Record State := mkState {
  files : gmap nat File.t;
  errors : gmap nat Err.t;
  cells : list jsval;
  trace : list event
}.

Definition with_files (m : gmap nat File.t) (s : State) : State :=
  mkState m (errors s) (cells s) (trace s).
Definition with_errors (m : gmap nat Err.t) (s : State) : State :=
  mkState (files s) m (cells s) (trace s).
Definition with_cells (c : list jsval) (s : State) : State :=
  mkState (files s) (errors s) c (trace s).
Definition with_trace (t : list event) (s : State) : State :=
  mkState (files s) (errors s) (cells s) t.

Inductive outcome (A : Type) :=
| Ret (a : A) (s : State)
| Raise (x : exn) (s : State).
Arguments Ret {A} a s.
Arguments Raise {A} x s.

Definition M (A : Type) : Type := State -> outcome A.

Definition ret {A} (a : A) : M A := fun s => Ret a s.

Definition raise {A} (x : exn) : M A := fun s => Raise x s.

Definition bind {A B} (m : M A) (k : A -> M B) : M B :=
  fun s => match m s with
           | Ret a s' => k a s'
           | Raise x s' => Raise x s'
           end.

Notation "'let*' x ':=' c 'in' k" := (bind c (fun x => k))
  (at level 10, x name, c at level 200, k at level 200).

(** The state an outcome leaves behind, whether it returned or threw. *)
Definition final {A} (r : outcome A) : State :=
  match r with Ret _ s => s | Raise _ s => s end.

Definition cbfun : Type := cbargs -> M unit.

(** A callback argument: plain data (which may be a host function) or a
    closure built by the plugin or handed over by a collaborator. *)
Inductive value :=
| VData (d : jsval)
| VClosure (g : cbfun).

(** [typeof v === 'function'] *)
Definition is_function (v : value) : bool :=
  match v with
  | VClosure _ => true
  | VData (JFunction _) => true
  | VData _ => false
  end.

Definition log (e : event) : M unit :=
  fun s => Ret tt (with_trace (trace s ++ [e]) s).

Definition log_all (es : list event) : M unit :=
  fun s => Ret tt (with_trace (trace s ++ es) s).

(** Property access on [file]: [undefined] (and a reference outside the
    heap) has no properties. *)
Definition read_file (file : option nat) : M File.t :=
  fun s => match file with
           | Some f =>
               match files s !! f with
               | Some fl => Ret fl s
               | None => Raise (TypeError "Cannot read property of undefined") s
               end
           | None => Raise (TypeError "Cannot read property of undefined") s
           end.

Definition write_file (f : nat) (fl : File.t) : M unit :=
  fun s => Ret tt (with_files (<[f:=fl]> (files s)) s).

Definition read_err (e : nat) : M Err.t :=
  fun s => match errors s !! e with
           | Some er => Ret er s
           | None => Raise (TypeError "Cannot read property of undefined") s
           end.

Definition modify_err (e : nat) (g : Err.t -> Err.t) : M unit :=
  fun s => match errors s !! e with
           | Some er => Ret tt (with_errors (<[e:=g er]> (errors s)) s)
           | None => Raise (TypeError "Cannot set property of undefined") s
           end.

Definition alloc_cell (d : jsval) : M nat :=
  fun s => Ret (length (cells s)) (with_cells (cells s ++ [d]) s).

Definition read_cell (l : nat) : M jsval :=
  fun s => Ret (default JUndefined (cells s !! l)) s.

Definition write_cell (l : nat) (d : jsval) : M unit :=
  fun s => Ret tt (with_cells (<[l:=d]> (cells s)) s).

(** Calling a host function: the call is observed, then the function
    returns or throws. *)
Definition host_call (h : hostfn) : cbfun :=
  fun a =>
    let* _ := log (EvCall (hf_id h) a) in
    match hf_throws h a with
    | Some x => raise x
    | None => ret tt
    end.

(** [v(args)] *)
Definition call (v : value) (a : cbargs) : M unit :=
  match v with
  | VClosure g => g a
  | VData (JFunction h) => host_call h a
  | VData _ => raise (TypeError "next is not a function")
  end.
Arguments call : simpl never.

(** ** Strings: [split('\n')] and [trim()] *)

Definition LF : ascii := "010"%char.

Definition dquote : ascii := "034"%char.

(** [s.split(sep)] for a one-character separator: never empty. *)
Fixpoint split (sep : ascii) (s : string) : list string :=
  match s with
  | EmptyString => [EmptyString]
  | String c s' =>
      if Ascii.eqb c sep then EmptyString :: split sep s'
      else match split sep s' with
           | x :: xs => String c x :: xs
           | [] => [String c EmptyString]
           end
  end.

(** White space of [String.prototype.trim] among the code units below 256. *)
Definition is_space (c : ascii) : bool :=
  let n := nat_of_ascii c in
  ((9 <=? n)%nat && (n <=? 13)%nat) || (n =? 32)%nat || (n =? 160)%nat.

Fixpoint trim_left (s : string) : string :=
  match s with
  | EmptyString => EmptyString
  | String c s' => if is_space c then trim_left s' else s
  end.

Fixpoint trim_right (s : string) : string :=
  match s with
  | EmptyString => EmptyString
  | String c s' =>
      match trim_right s' with
      | EmptyString => if is_space c then EmptyString else String c EmptyString
      | t => String c t
      end
  end.

Definition trim (s : string) : string := trim_right (trim_left s).

(** [stack.split('\n')[1].trim()]: each property access on [undefined]
    throws. *)
Definition second_line (stack : option string) : M string :=
  match stack with
  | None => raise (TypeError "Cannot read property 'split' of undefined")
  | Some st =>
      match split LF st !! 1 with
      | Some l => ret (trim l)
      | None => raise (TypeError "Cannot read property 'trim' of undefined")
      end
  end.

(** ** The Route Engine *)

(** Modelled from the spec: the Route Engine ([en-route]) is an external
    collaborator.  A router owns routes in order; a route is bound to a
    path pattern and owns (verb, middleware) pairs in registration order;
    [router.handle(file, done)] runs, in order, the middleware registered
    for the verb in [file.options.method] on the routes that match
    [file.path], stops at the first one that passes an error to its [next],
    and calls [done(err)] or [done()]. *)
Record middleware := Middleware {
  mw_id : nat;
  mw_next : nat -> option nat
}.

Record Route := mkRoute {
  rt_match : string -> bool;
  rt_stack : list (string * middleware)
}.

Record Router := mkRouter {
  methods : list string;
  routes : list Route
}.

(** The middleware a dispatch of [verb] on [path] goes through. *)
Definition matching (r : Router) (path verb : string) : list middleware :=
  flat_map (fun rt =>
              if rt_match rt path
              then map snd (List.filter (fun p => String.eqb (fst p) verb) (rt_stack rt))
              else [])
           (routes r).

(** Runs a stack: the events observed and the error that stopped it. *)
Fixpoint run_stack (ms : list middleware) (file : nat) : list event * option nat :=
  match ms with
  | [] => ([], None)
  | m :: ms' =>
      match mw_next m file with
      | Some e => ([EvMiddleware (mw_id m) file], Some e)
      | None => let '(evs, r) := run_stack ms' file in
                (EvMiddleware (mw_id m) file :: evs, r)
      end
  end.

Definition Router_handle (r : Router) (file : nat) (done : cbfun) : M unit :=
  let* fl := read_file (Some file) in
  let verb := default EmptyString (o ← File.options fl; Options.method o) in
  let '(evs, r) := run_stack (matching r (File.path fl) verb) file in
  let* _ := log_all evs in
  match r with
  | Some e => done (ArgsErr e)
  | None => done Args0
  end.

(** [router.method(names)] *)
Definition Router_method (names : list string) (r : Router) : Router :=
  mkRouter (methods r ++ names) (routes r).

(** ** The host *)

(** What [this[name]] can be: nothing, or an object with a [handle]
    method. *)
Inductive jsprop :=
| PUndefined
| PCollection (c_handle : string -> nat -> value -> M unit).

Record host := mkHost {
  isTemplates : bool;
  isCollection : bool;
  _name : string;
  router : option Router;
  hasListeners : string -> bool;
  prop : string -> jsprop
}.

Definition with_router (r : Router) (h : host) : host :=
  mkHost (isTemplates h) (isCollection h) (_name h) (Some r) (hasListeners h) (prop h).

(** [this.emit(name, payload)]: listeners are host code, seen in the trace. *)
Definition emit (this : host) (name : string) (p : payload) : M unit :=
  log (EvEmit (_name this) name p).

(** [debug('handling "%s" middleware for "%s"', method, file.basename)] *)
Definition debug (method basename : string) : M unit :=
  log (EvDebug method basename).

(** ** The dispatcher *)

Section Dispatcher.

(** [require('template-error')]: returns ([None]) or throws an error object
    of the heap. *)
Variable rethrow : string -> list (string * string) -> option nat.

(** [utils.methods], the verbs every router starts with. *)
Variable utils_methods : list string.

(** The closure variable [next] of [handleError]: a closure stays what it
    is; data lives in a cell, since [next = next || file.next] may replace
    it at every invocation. *)
Inductive nextvar :=
| NClosure (g : cbfun)
| NCell (l : nat).

(** [next = next || file.next] *)
Definition resolve_next (nv : nextvar) (file : option nat) : M value :=
  match nv with
  | NClosure g => ret (VClosure g)
  | NCell l =>
      let* d := read_cell l in
      if truthy d then ret (VData d)
      else
        let* fl := read_file file in
        let* _ := write_cell l (File.next fl) in
        ret (VData (File.next fl))
  end.

(** [if (typeof next !== 'function') throw new TypeError(...)] *)
Definition guard (next : value) : M unit :=
  if is_function next then ret tt
  else raise (TypeError "expected a callback function").

(** [app._name + '#handle("' + method + '"): ' + file.path] *)
Definition reason_of (app : host) (method path : string) : string :=
  (_name app ++ "#handle(" ++ String dquote method
   ++ String dquote "): " ++ path)%string.

(** The callback of [handleError] from [if (err)] on, [next] resolved. *)
Definition after_guard (app : host) (method : string) (file : option nat)
  (next : value) : cbfun :=
  fun a =>
    match arg_err a with
    | Some err =>
        let* e := read_err err in
        if Err._handled e then call next Args0
        else
          let* _ := modify_err err (Err.set_handled true) in
          let* src := second_line (Err.stack e) in
          let* _ := modify_err err (Err.set_source src) in
          let* fl := read_file file in
          let* _ := modify_err err (Err.set_reason (reason_of app method (File.path fl))) in
          let* _ := modify_err err (Err.set_file file) in
          let* _ := (if hasListeners app "error" then emit app "error" (PErr err)
                     else ret tt) in
          if negb (is_function next) then raise (Thrown (Some err))
          else if Err.isReferenceError e then
            match rethrow (File.content fl) (File.data fl) with
            | Some e' => call next (ArgsErr e')
            | None => call next (ArgsErr err)
            end
          else call next (ArgsErr err)
    | None => call next (ArgsOk file)
    end.

(** The function [handleError] returns. *)
Definition handleError_cb (app : host) (method : string) (file : option nat)
  (nv : nextvar) : cbfun :=
  fun a =>
    let* next := resolve_next nv file in
    let* _ := guard next in
    after_guard app method file next a.

(** Binding the parameter [next] of [handleError] for its closure. *)
Definition close_over (next : value) : M nextvar :=
  match next with
  | VClosure g => ret (NClosure g)
  | VData d => let* l := alloc_cell d in ret (NCell l)
  end.

Definition handleError (this : host) (method : string) (file : option nat)
  (next : value) : M cbfun :=
  let* nv := close_over next in
  ret (handleError_cb this method file nv).

(** [lazyRouter(methods)] *)
Definition lazyRouter (this : host) (names : option (list string)) : host :=
  let this :=
    match router this with
    | None => with_router (mkRouter utils_methods []) this
    | Some _ => this
    end in
  match names, router this with
  | Some ns, Some r => with_router (Router_method ns r) this
  | _, _ => this
  end.

(** [this.router], once [lazyRouter] has run. *)
Definition the_router (this : host) : Router :=
  default (mkRouter utils_methods []) (router this).

(** The callback [handle] makes up when it is given none:
    [function(err, file) { app.handleError(method, file, function() { throw err; }); }] *)
Definition fallback (app : host) (method : string) : cbfun :=
  fun a =>
    let* _ := handleError app method (arg_file a)
                (VClosure (fun _ => raise (Thrown (arg_err a)))) in
    ret tt.

(** [collection.handle(method, file, cb)] *)
Definition collection_handle (c : jsprop) (method : string) (file : nat)
  (cb : cbfun) : M unit :=
  match c with
  | PCollection h => h method file (VClosure cb)
  | PUndefined => raise (TypeError "Cannot read property 'handle' of undefined")
  end.

(** Truthiness of [file.options.collection]. *)
Definition is_set (c : option string) : bool :=
  match c with
  | Some c => negb (String.eqb c EmptyString)
  | None => false
  end.

(** What [handle] leaves in [file.options]: [handled] created if absent
    and extended by the verb, [method] overwritten. *)
Definition record_verb (method : string) (fl : File.t) : File.t :=
  let o := default Options.empty (File.options fl) in
  let hs := default [] (Options.handled o) in
  File.set_options
    (Some (Options.mk (Some (hs ++ [method])) (Some method) (Options.collection o)))
    fl.

(** The test that sends [handle] down the one-phase path. *)
Definition direct (this : host) (fl : File.t) : bool :=
  negb (isTemplates this) || isCollection this
  || negb (is_set (o ← File.options fl; Options.collection o)).

Definition handle (this : host) (method : string) (file : nat) (next : value)
  : M unit :=
  let* fl := read_file (Some file) in
  let* _ := debug method (File.basename fl) in
  let this := lazyRouter this None in
  let next := if is_function next then next
              else VClosure (fallback this method) in
  let* _ := write_file file (record_verb method fl) in
  let* _ := emit this method (PFile file) in
  let* cb := handleError this method (Some file) next in
  if direct this fl
  then Router_handle (the_router this) file cb
  else
    let collection :=
      prop this (default EmptyString (o ← File.options fl; Options.collection o)) in
    Router_handle (the_router this) file
      (fun a =>
         match arg_err a with
         | Some err => cb (ArgsErr err)
         | None => collection_handle collection method file cb
         end).

Definition handleOnce (this : host) (method : string) (file : nat)
  (next : value) : M unit :=
  let* fl := read_file (Some file) in
  match File.options fl with
  | None => raise (TypeError "Cannot read property 'handled' of undefined")
  | Some o =>
      let hs := default [] (Options.handled o) in
      let* _ := (match Options.handled o with
                 | Some _ => ret tt
                 | None =>
                     write_file file
                       (File.set_options
                          (Some (Options.mk (Some []) (Options.method o)
                                   (Options.collection o))) fl)
                 end) in
      let next := if is_function next then next else VData (File.next fl) in
      if existsb (String.eqb method) hs
      then call next (ArgsOk (Some file))
      else handle this method file next
  end.

(** A collection that carries this plugin: its [handle] is the [handle]
    above, run on the collection. *)
Definition plugin_collection (c : host) : jsprop := PCollection (handle c).

(** [n] calls one after the other, each starting in the state the previous
    one left. *)
Fixpoint repeat_call (n : nat) (c : M unit) (s : State) : State :=
  match n with
  | 0 => s
  | S n' => repeat_call n' c (final (c s))
  end.

(** How often [method] occurs in [file.options.handled]. *)
Definition occurrences (method : string) (file : nat) (s : State) : nat :=
  match files s !! file with
  | Some fl =>
      length (List.filter (String.eqb method)
                (default [] (o ← File.options fl; Options.handled o)))
  | None => 0
  end.

(** ** Vocabulary of the statements *)

(** [this] with other properties behind [this[name]]. *)
Definition with_prop (p : string -> jsprop) (h : host) : host :=
  mkHost (isTemplates h) (isCollection h) (_name h) (router h) (hasListeners h) p.

(** The callback [handle] works with: the one it was given, or [fallback]. *)
Definition normalized (this : host) (method : string) (next : value) : value :=
  if is_function next then next else VClosure (fallback this method).

(** The state in which [handle] builds its callback: verb recorded,
    [debug] and [emit] done. *)
Definition started (this : host) (method : string) (f : nat) (fl : File.t)
  (s : State) : State :=
  mkState (<[f:=record_verb method fl]> (files s)) (errors s) (cells s)
    (trace s ++ [EvDebug method (File.basename fl);
                 EvEmit (_name this) method (PFile f)]).

(** The host's own middleware for a dispatch, run: events and outcome. *)
Definition host_phase (this : host) (method : string) (file : nat) (fl : File.t)
  : list event * option nat :=
  run_stack (matching (the_router (lazyRouter this None)) (File.path fl) method) file.

(** The closure variable [next] as an invocation finds it. *)
Definition bound_next (nv : nextvar) (s : State) : value :=
  match nv with
  | NClosure g => VClosure g
  | NCell l => VData (default JUndefined (cells s !! l))
  end.

(** [v || d] *)
Definition js_or (v : value) (d : jsval) : value :=
  match v with
  | VClosure _ => v
  | VData d0 => if truthy d0 then v else VData d
  end.

(** [stack] is a string with a second line. *)
Definition has_second_line (stack : option string) : bool :=
  match stack with
  | Some st => (2 <=? length (split LF st))%nat
  | None => false
  end.

(** The error event, when somebody listens. *)
Definition announce (app : host) (e : nat) : list event :=
  if hasListeners app "error" then [EvEmit (_name app) "error" (PErr e)] else [].

(** The error object after its first pass through [handleError]'s callback:
    [l] is the second line of its stack. *)
Definition enrich (app : host) (method : string) (f : nat) (fl : File.t)
  (l : string) (er : Err.t) : Err.t :=
  Err.mk true (Err.stack er) (Some (trim l))
    (Some (reason_of app method (File.path fl))) (Some f)
    (Err.isReferenceError er).

(** A computation leaves a property of the files as it found it. *)
Definition keeps (P : gmap nat File.t -> Prop) (c : M unit) : Prop :=
  forall s, P (files s) -> P (files (final (c s))).

Definition value_keeps (P : gmap nat File.t -> Prop) (v : value) : Prop :=
  forall a, keeps P (call v a).

Definition cb_keeps (P : gmap nat File.t -> Prop) (g : cbfun) : Prop :=
  forall a, keeps P (g a).

Definition nextvar_keeps (P : gmap nat File.t -> Prop) (nv : nextvar) : Prop :=
  match nv with
  | NClosure g => cb_keeps P g
  | NCell _ => True
  end.

(** Every collection of the host keeps [P] when it handles [method] for
    [file], given a callback that does. *)
Definition collections_keep (P : gmap nat File.t -> Prop) (this : host)
  (method : string) (file : nat) : Prop :=
  forall name ch g,
    prop this name = PCollection ch ->
    cb_keeps P g -> keeps P (ch method file (VClosure g)).

(** A callback that does not write to the file [f]. *)
Definition leaves_file (f : nat) (v : value) : Prop :=
  forall fl, value_keeps (fun m => m !! f = Some fl) v.

(** [file.options.method] is [v] and [file.options.handled] has [v]. *)
Definition recorded (v : string) (f : nat) (m : gmap nat File.t) : Prop :=
  exists fl o hs,
    m !! f = Some fl /\ File.options fl = Some o /\
    Options.method o = Some v /\ Options.handled o = Some hs /\ In v hs.

(** [file.options.handled] has [v]. *)
Definition handled_in (v : string) (f : nat) (m : gmap nat File.t) : Prop :=
  exists fl o hs,
    m !! f = Some fl /\ File.options fl = Some o /\
    Options.handled o = Some hs /\ In v hs.

(** ** Sample inputs *)

Definition cb7 : hostfn := HostFn 7 (fun _ => None).

Definition a_md : File.t :=
  File.mk "a.md" "a.md" "{{title}}" [] None JUndefined.

Definition a_md_in (c : string) : File.t :=
  File.mk "a.md" "a.md" "{{title}}" []
    (Some (Options.mk None None (Some c))) JUndefined.

Definition boom : Err.t :=
  Err.mk false
    (Some ("ReferenceError: title is not defined"
           ++ String LF "    at render (a.md:1:3)")%string)
    None None None true.

Definition every_path : string -> bool := fun _ => true.

Definition passes (id : nat) : middleware := Middleware id (fun _ => None).

Definition fails (id e : nat) : middleware := Middleware id (fun _ => Some e).

Definition plain_host (name : string) (ms : list (string * middleware)) : host :=
  mkHost false false name (Some (mkRouter [] [mkRoute every_path ms]))
    (fun _ => false) (fun _ => PUndefined).

Definition pages (ms : list (string * middleware)) : host :=
  mkHost true true "pages" (Some (mkRouter [] [mkRoute every_path ms]))
    (fun _ => false) (fun _ => PUndefined).

Definition templates_host (ms cs : list (string * middleware)) : host :=
  mkHost true false "app" (Some (mkRouter [] [mkRoute every_path ms]))
    (fun _ => false)
    (fun n => if String.eqb n "pages" then plugin_collection (pages cs)
              else PUndefined).

(** A file whose [next] is a host function. *)
Definition b_md : File.t :=
  File.mk "b.md" "b.md" "{{title}}" []
    (Some (Options.mk None None None)) (JFunction cb7).

(** A file already handled for [onLoad], with a host function as [next]. *)
Definition c_md : File.t :=
  File.mk "c.md" "c.md" "{{title}}" []
    (Some (Options.mk (Some ["onLoad"]) (Some "onLoad") None)) (JFunction cb7).

(** An error without a stack, and one whose stack is a single line. *)
Definition mute : Err.t := Err.mk false None None None None false.

Definition one_liner : Err.t :=
  Err.mk false (Some "Error: boom") None None None false.

(** A [rethrow] that returns, and one that throws the error object 1. *)
Definition keep_error : string -> list (string * string) -> option nat :=
  fun _ _ => None.

Definition map_error : string -> list (string * string) -> option nat :=
  fun _ _ => Some 1.

Definition sample_methods : list string := ["onLoad"; "preRender"].

Definition heap (fl : File.t) : State :=
  mkState {[ 0 := fl ]} {[ 0 := boom ]} [] [].

Definition heap_with (fl : File.t) (er : Err.t) (cs : list jsval) : State :=
  mkState {[ 0 := fl ]} {[ 0 := er ]} cs [].

(** ** Sequences of dispatches *)

(** A callback that writes to no file. *)
Definition writes_no_file (v : value) : Prop :=
  forall a s, files (final (call v a s)) = files s.

(** [handle] for each verb of [vs] in turn, on the same file, each call
    starting in the state the previous one left. *)
Fixpoint handle_each (this : host) (vs : list string) (file : nat)
  (next : value) (s : State) : State :=
  match vs with
  | [] => s
  | v :: vs' => handle_each this vs' file next (final (handle this v file next s))
  end.

(** The same with [handleOnce]. *)
Fixpoint handleOnce_each (this : host) (vs : list string) (file : nat)
  (next : value) (s : State) : State :=
  match vs with
  | [] => s
  | v :: vs' =>
      handleOnce_each this vs' file next (final (handleOnce this v file next s))
  end.

(** [hs] with [v] at its end, unless [v] is in it. *)
Definition add_once (hs : list string) (v : string) : list string :=
  if existsb (String.eqb v) hs then hs else hs ++ [v].

(** [file.options.handled], read as a list. *)
Definition handled_of (fl : File.t) : list string :=
  default [] (o ← File.options fl; Options.handled o).

(** ** Registering middleware *)

(** Modelled from the spec: when two paths are equal is for the Route
    Engine to say; its test is a parameter.  A path, string or regular
    expression, is taken as the test it stands for. *)
Variable same_path : (string -> bool) -> (string -> bool) -> bool.

(** The position of the first route whose path is equal to [pat]. *)
Fixpoint find_route (pat : string -> bool) (rts : list Route) : option nat :=
  match rts with
  | [] => None
  | rt :: rts' =>
      if same_path (rt_match rt) pat then Some 0
      else S <$> find_route pat rts'
  end.




(** The host together with the names [mixinHandlers] has defined verb
    methods for. *)
Record App := mkApp {
  app_host : host;
  verbs : list string
}.








(** [app.define(method, fn)] for such a method. *)
Definition define_verb (a : App) (method : string) : App :=
  mkApp (app_host a) (verbs a ++ [method]).

(** [mixinHandlers(methods)]: [utils.arrayify(methods).forEach(...)] *)
Definition mixinHandlers (names : list string) (a : App) : App :=
  fold_left define_verb names a.

(** [handlers(methods)] *)
Definition handlers (names : list string) (a : App) : App :=
  mixinHandlers names (mkApp (lazyRouter (app_host a) (Some names)) (verbs a)).

(** [handler(method)] *)
Definition handler (names : list string) (a : App) : App := handlers names a.


(** ** More sample inputs *)

(** An error already marked, and a plain error with a stack of two lines. *)
Definition seen : Err.t :=
  Err.mk true (Some "Error: seen") (Some "at first") (Some "first") (Some 0) false.

Definition plain_boom : Err.t :=
  Err.mk false
    (Some ("Error: no such partial"
           ++ String LF "    at render (a.md:1:3)")%string)
    None None None false.

(** ** Properties *)

(** Case analysis on the innermost scrutinee of the goal. *)
Ltac case_innermost :=
  match goal with
  | |- context [match ?x with _ => _ end] =>
      lazymatch x with
      | context [match _ with _ => _ end] => fail
      | _ => destruct x eqn:?
      end
  end.

(** *** The monad, step by step *)

Lemma bind_ret {A B} (m : M A) (k : A -> M B) s a s' :
  m s = Ret a s' -> bind m k s = k a s'.
Proof. intros H. unfold bind. now rewrite H. Qed.

Lemma bind_raise {A B} (m : M A) (k : A -> M B) s x s' :
  m s = Raise x s' -> bind m k s = Raise x s'.
Proof. intros H. unfold bind. now rewrite H. Qed.

Lemma read_file_some f s fl :
  files s !! f = Some fl -> read_file (Some f) s = Ret fl s.
Proof. intros H. unfold read_file. now rewrite H. Qed.

Lemma read_err_some e s er :
  errors s !! e = Some er -> read_err e s = Ret er s.
Proof. intros H. unfold read_err. now rewrite H. Qed.

Lemma modify_err_some e g s er :
  errors s !! e = Some er ->
  modify_err e g s = Ret tt (with_errors (<[e:=g er]> (errors s)) s).
Proof. intros H. unfold modify_err. now rewrite H. Qed.

(** *** What the pieces touch *)

Lemma resolve_next_frame nv file s v s' :
  resolve_next nv file s = Ret v s' ->
  files s' = files s /\ errors s' = errors s /\ trace s' = trace s.
Proof.
  destruct nv as [g|l]; simpl.
  - unfold ret. intros [= <- <-]. auto.
  - unfold bind, read_cell.
    destruct (truthy (default JUndefined (cells s !! l))).
    + unfold ret. intros [= <- <-]. auto.
    + unfold read_file. destruct file as [f|]; [|discriminate].
      destruct (files s !! f); [|discriminate].
      unfold write_cell, ret. intros [= <- <-]. auto.
Qed.

Lemma resolve_next_files nv file s :
  files (final (resolve_next nv file s)) = files s.
Proof.
  destruct nv as [g|l]; simpl; [reflexivity|].
  unfold bind, read_cell.
  destruct (truthy (default JUndefined (cells s !! l))); [reflexivity|].
  unfold read_file. destruct file as [f|]; [|reflexivity].
  destruct (files s !! f); reflexivity.
Qed.

Lemma call_data_files d a s : files (final (call (VData d) a s)) = files s.
Proof.
  unfold call. destruct d; try reflexivity. unfold host_call, bind, log.
  destruct (hf_throws h a); reflexivity.
Qed.

Lemma value_keeps_data P d : value_keeps P (VData d).
Proof. intros a s H. now rewrite call_data_files. Qed.

(** *** The callback of [handleError] *)

(** The callback, once [next] is resolved and passes the guard. *)
Lemma handleError_cb_resolved app v file nv a s next s0 :
  resolve_next nv file s = Ret next s0 ->
  is_function next = true ->
  handleError_cb app v file nv a s = after_guard app v file next a s0.
Proof.
  intros Hr Hf. unfold handleError_cb.
  rewrite (bind_ret _ _ _ _ _ Hr). unfold guard. now rewrite Hf.
Qed.

(** The first sighting of an error whose stack has a second line [l]:
    marked, enriched, announced, forwarded. *)
Lemma first_sighting app v f nv e s next s0 er fl st l :
  resolve_next nv (Some f) s = Ret next s0 ->
  is_function next = true ->
  errors s !! e = Some er -> Err._handled er = false ->
  Err.stack er = Some st -> split LF st !! 1 = Some l ->
  files s !! f = Some fl ->
  handleError_cb app v (Some f) nv (ArgsErr e) s =
  call next
    (ArgsErr (if Err.isReferenceError er
              then default e (rethrow (File.content fl) (File.data fl))
              else e))
    (mkState (files s0) (<[e:=enrich app v f fl l er]> (errors s0)) (cells s0)
       (trace s0 ++ announce app e)).
Proof.
  intros Hr Hf He Hh Hst Hl Hfl.
  destruct (resolve_next_frame _ _ _ _ _ Hr) as (Hfs & Hes & _).
  rewrite (handleError_cb_resolved _ _ _ _ _ _ _ _ Hr Hf).
  unfold after_guard. simpl. destruct (is_function next); [simpl|discriminate].
  rewrite <- Hes in He. rewrite <- Hfs in Hfl.
  rewrite (bind_ret _ _ _ _ _ (read_err_some _ _ _ He)). rewrite Hh.
  rewrite (bind_ret _ _ _ _ _ (modify_err_some _ _ _ _ He)).
  unfold second_line. rewrite Hst, Hl.
  unfold bind at 1. unfold ret at 1.
  unfold bind at 1. unfold modify_err at 1. simpl. rewrite lookup_insert_eq.
  unfold bind at 1. unfold read_file at 1. simpl. rewrite Hfl.
  unfold bind at 1. unfold modify_err at 1. simpl. rewrite lookup_insert_eq.
  unfold bind at 1. unfold modify_err at 1. simpl. rewrite lookup_insert_eq.
  rewrite !insert_insert_eq.
  unfold announce, emit, bind, log, ret. simpl.
  destruct (hasListeners app "error"); simpl.
  - destruct (Err.isReferenceError er); [|reflexivity].
    destruct (rethrow _ _); reflexivity.
  - rewrite app_nil_r.
    destruct (Err.isReferenceError er); [|destruct s0; reflexivity].
    destruct (rethrow _ _); destruct s0; reflexivity.
Qed.

Lemma second_line_lookup st :
  has_second_line (Some st) = true <-> exists l, split LF st !! 1 = Some l.
Proof.
  unfold has_second_line. rewrite Nat.leb_le. split.
  - intros H. apply lookup_lt_is_Some_2. lia.
  - intros [l Hl]. apply lookup_lt_Some in Hl. lia.
Qed.

(** An error already marked goes to [next()] and is not touched. *)
Lemma seen_before app v file nv e s next s0 er :
  resolve_next nv file s = Ret next s0 ->
  is_function next = true ->
  errors s !! e = Some er -> Err._handled er = true ->
  handleError_cb app v file nv (ArgsErr e) s = call next Args0 s0.
Proof.
  intros Hr Hf He Hh.
  destruct (resolve_next_frame _ _ _ _ _ Hr) as (_ & Hes & _).
  rewrite (handleError_cb_resolved _ _ _ _ _ _ _ _ Hr Hf).
  unfold after_guard. simpl. rewrite <- Hes in He.
  rewrite (bind_ret _ _ _ _ _ (read_err_some _ _ _ He)). now rewrite Hh.
Qed.

(** C4: an error that goes twice through a callback of [handleError].  On
    its first pass it is marked handled and enriched ([source], [reason],
    [file]) and forwarded to [next]; on any later pass, the mark being
    there, the callback calls [next()] with no argument, in a state where
    the error object is exactly as that pass found it: [reason] and
    [source] are not written again. *)
Theorem C4_handled_error_passes_through app v f nv e s next s0 er fl st l :
  resolve_next nv (Some f) s = Ret next s0 ->
  is_function next = true ->
  errors s !! e = Some er -> Err._handled er = false ->
  Err.stack er = Some st -> split LF st !! 1 = Some l ->
  files s !! f = Some fl ->
  let s1 := mkState (files s0) (<[e:=enrich app v f fl l er]> (errors s0))
              (cells s0) (trace s0 ++ announce app e) in
  (exists fwd, handleError_cb app v (Some f) nv (ArgsErr e) s
               = call next (ArgsErr fwd) s1)
  /\ errors s1 !! e = Some (enrich app v f fl l er)
  /\ Err._handled (enrich app v f fl l er) = true
  /\ Err.source (enrich app v f fl l er) = Some (trim l)
  /\ Err.reason (enrich app v f fl l er) = Some (reason_of app v (File.path fl))
  /\ forall s2 er2 next2 s3,
       errors s2 !! e = Some er2 -> Err._handled er2 = true ->
       resolve_next nv (Some f) s2 = Ret next2 s3 ->
       is_function next2 = true ->
       handleError_cb app v (Some f) nv (ArgsErr e) s2 = call next2 Args0 s3
       /\ errors s3 !! e = Some er2.
Proof.
  intros Hr Hf He Hh Hst Hl Hfl s1.
  split; [|split; [|split; [|split; [|split]]]]; try reflexivity.
  - eexists. subst s1. eapply first_sighting; eauto.
  - subst s1. simpl. apply lookup_insert_eq.
  - intros s2 er2 next2 s3 He2 Hh2 Hr2 Hf2. split.
    + eapply seen_before; eauto.
    + destruct (resolve_next_frame _ _ _ _ _ Hr2) as (_ & Hes & _). congruence.
Qed.

(** C5: a [ReferenceError] seen for the first time.  After the enrichment
    the callback calls [rethrow(file.content, file.data)]; when that throws
    an error, [next] gets that error, and when it returns, [next] gets the
    original, enriched one. *)
Theorem C5_reference_error_goes_through_rethrow app v f nv e s next s0 er fl st l :
  resolve_next nv (Some f) s = Ret next s0 ->
  is_function next = true ->
  errors s !! e = Some er -> Err._handled er = false ->
  Err.isReferenceError er = true ->
  Err.stack er = Some st -> split LF st !! 1 = Some l ->
  files s !! f = Some fl ->
  let s1 := mkState (files s0) (<[e:=enrich app v f fl l er]> (errors s0))
              (cells s0) (trace s0 ++ announce app e) in
  handleError_cb app v (Some f) nv (ArgsErr e) s =
  match rethrow (File.content fl) (File.data fl) with
  | Some e' => call next (ArgsErr e') s1
  | None => call next (ArgsErr e) s1
  end.
Proof.
  intros Hr Hf He Hh Href Hst Hl Hfl s1. subst s1.
  rewrite (first_sighting _ _ _ _ _ _ _ _ _ _ _ _ Hr Hf He Hh Hst Hl Hfl).
  rewrite Href. now destruct (rethrow _ _).
Qed.

(** C10: the enrichment needs a second line in [err.stack].  For an error
    seen for the first time whose [stack] is absent or has fewer than two
    lines, the callback throws a [TypeError] right after marking the error:
    nothing else is written and [next] is not called.  With a second line
    the error is forwarded to [next]. *)
Theorem C10_enrichment_needs_second_line app v f nv e s next s0 er :
  resolve_next nv (Some f) s = Ret next s0 ->
  is_function next = true ->
  errors s !! e = Some er -> Err._handled er = false ->
  if has_second_line (Err.stack er)
  then forall fl, files s !! f = Some fl ->
       exists fwd s1,
         handleError_cb app v (Some f) nv (ArgsErr e) s = call next (ArgsErr fwd) s1
  else exists msg,
         handleError_cb app v (Some f) nv (ArgsErr e) s =
         Raise (TypeError msg)
           (with_errors (<[e:=Err.set_handled true er]> (errors s0)) s0).
Proof.
  intros Hr Hf He Hh. destruct (has_second_line (Err.stack er)) eqn:Hsl.
  - intros fl Hfl. destruct (Err.stack er) as [st|] eqn:Hst; [|discriminate].
    apply second_line_lookup in Hsl as [l Hl].
    eexists _, _. eapply first_sighting; eauto.
  - destruct (resolve_next_frame _ _ _ _ _ Hr) as (_ & Hes & _).
    rewrite (handleError_cb_resolved _ _ _ _ _ _ _ _ Hr Hf).
    unfold after_guard. simpl. rewrite <- Hes in He.
    rewrite (bind_ret _ _ _ _ _ (read_err_some _ _ _ He)). rewrite Hh.
    rewrite (bind_ret _ _ _ _ _ (modify_err_some _ _ _ _ He)).
    unfold second_line. destruct (Err.stack er) as [st|] eqn:Hst.
    + destruct (split LF st !! 1) as [l|] eqn:Hl.
      * assert (has_second_line (Some st) = true) by (apply second_line_lookup; eauto).
        congruence.
      * eexists. reflexivity.
    + eexists. reflexivity.
Qed.

(** [next = next || file.next], for a file of the heap. *)
Lemma resolve_next_or nv f s fl :
  files s !! f = Some fl ->
  exists s0,
    resolve_next nv (Some f) s = Ret (js_or (bound_next nv s) (File.next fl)) s0.
Proof.
  intros Hfl. destruct nv as [g|l]; simpl.
  - eexists. reflexivity.
  - unfold bind, read_cell.
    destruct (truthy (default JUndefined (cells s !! l))).
    + eexists. reflexivity.
    + rewrite (read_file_some _ _ _ Hfl). eexists. reflexivity.
Qed.

(** C7, as the code has it: the callback of [handleError] throws its
    [TypeError('expected a callback function')] exactly when
    [next || file.next] is not a function, that is when the bound [next] is
    falsy and [file.next] is not callable, or when the bound [next] is
    truthy and not callable (whatever [file.next] is).  When
    [next || file.next] is a function the guard lets the call through to
    the rest of the callback. *)
Theorem C7_guard_on_next_or_file_next app v f nv a s fl :
  files s !! f = Some fl ->
  let next := js_or (bound_next nv s) (File.next fl) in
  exists s0,
    files s0 = files s /\ errors s0 = errors s /\ trace s0 = trace s
    /\ handleError_cb app v (Some f) nv a s
       = if is_function next then after_guard app v (Some f) next a s0
         else Raise (TypeError "expected a callback function") s0.
Proof.
  intros Hfl next. destruct (resolve_next_or nv f s fl Hfl) as [s0 Hr].
  fold next in Hr. destruct (resolve_next_frame _ _ _ _ _ Hr) as (H1 & H2 & H3).
  exists s0. repeat (split; [assumption|]).
  destruct (is_function next) eqn:Hf.
  - now apply handleError_cb_resolved.
  - unfold handleError_cb. rewrite (bind_ret _ _ _ _ _ Hr).
    unfold guard. now rewrite Hf.
Qed.

(** The callback [handle] makes up for a missing one builds a closure
    with [handleError] and drops it: whatever it is called with, it
    returns, and the state is as it was. *)
Lemma fallback_returns app v a s : fallback app v a s = Ret tt s.
Proof. reflexivity. Qed.

Lemma handleOnce_without_options this v f next s fl :
  files s !! f = Some fl -> File.options fl = None ->
  handleOnce this v f next s
  = Raise (TypeError "Cannot read property 'handled' of undefined") s.
Proof.
  intros Hfl Ho. unfold handleOnce.
  rewrite (bind_ret _ _ _ _ _ (read_file_some _ _ _ Hfl)). now rewrite Ho.
Qed.

(** C9 (what the code does): [handleOnce] reads [file.options.handled]
    first, and unlike [handle] it does not create [file.options]; for a
    file without [options] that read throws, and nothing is normalized. *)
Theorem C9_handleOnce_without_options_throws this v f next s fl :
  files s !! f = Some fl -> File.options fl = None ->
  handleOnce this v f next s
  = Raise (TypeError "Cannot read property 'handled' of undefined") s.
Proof. apply handleOnce_without_options. Qed.

(** *** Files are only written by [handle] and [handleOnce] *)

(** The rest of the callback ends in a call of [next], or stops short of
    it; the files it leaves untouched. *)
Lemma after_guard_ends app v file next a s :
  files (final (after_guard app v file next a s)) = files s
  \/ exists a' s', files s' = files s
                   /\ after_guard app v file next a s = call next a' s'.
Proof.
  unfold after_guard, bind, read_err, modify_err, second_line, read_file,
    emit, log, ret, raise.
  repeat (cbn -[call]; case_innermost);
    cbn -[call]; try (left; reflexivity);
    right; eexists _, _; (split; [|reflexivity]); reflexivity.
Qed.

Lemma resolve_next_value nv file s next s0 :
  resolve_next nv file s = Ret next s0 ->
  (exists g, nv = NClosure g /\ next = VClosure g) \/ exists d, next = VData d.
Proof.
  destruct nv as [g|l]; simpl.
  - unfold ret. intros [= <- <-]. left. eauto.
  - unfold bind, read_cell.
    destruct (truthy (default JUndefined (cells s !! l))).
    + unfold ret. intros [= <- <-]. right. eauto.
    + destruct (read_file file s); [|discriminate].
      unfold write_cell, ret. intros [= <- <-]. right. eauto.
Qed.

Lemma handleError_cb_keeps P app v file nv :
  nextvar_keeps P nv -> cb_keeps P (handleError_cb app v file nv).
Proof.
  intros Hnv a s HP. unfold handleError_cb, bind.
  pose proof (resolve_next_files nv file s) as Hfs.
  destruct (resolve_next nv file s) as [next s0|x s0] eqn:Hr; simpl in Hfs;
    [|simpl; now rewrite Hfs].
  assert (Hk : value_keeps P next).
  { destruct (resolve_next_value _ _ _ _ _ Hr) as [(g & -> & ->)|[d ->]].
    - exact Hnv.
    - apply value_keeps_data. }
  unfold guard. destruct (is_function next); simpl; [|now rewrite Hfs].
  destruct (after_guard_ends app v file next a s0) as [H|(a' & s' & H1 & H2)].
  - rewrite H. now rewrite Hfs.
  - rewrite H2. apply Hk. rewrite H1. now rewrite Hfs.
Qed.

Lemma fallback_keeps P app v : cb_keeps P (fallback app v).
Proof. intros a s HP. exact HP. Qed.

(** [router.handle(file, done)] on a file of the heap. *)
Lemma Router_handle_run r f done s fl :
  files s !! f = Some fl ->
  let verb := default EmptyString (o ← File.options fl; Options.method o) in
  let run := run_stack (matching r (File.path fl) verb) f in
  Router_handle r f done s =
  done (match snd run with Some e => ArgsErr e | None => Args0 end)
    (with_trace (trace s ++ fst run) s).
Proof.
  intros Hfl verb run. unfold Router_handle.
  rewrite (bind_ret _ _ _ _ _ (read_file_some _ _ _ Hfl)).
  fold verb. fold run. destruct run as [evs [e|]]; reflexivity.
Qed.

Lemma close_over_binds next s :
  exists nv s',
    close_over next s = Ret nv s'
    /\ files s' = files s /\ errors s' = errors s /\ trace s' = trace s
    /\ bound_next nv s' = next.
Proof.
  destruct next as [d|g]; simpl.
  - eexists _, _. split; [reflexivity|]. simpl. repeat split.
    rewrite lookup_app_r by lia. now rewrite Nat.sub_diag.
  - eexists _, _. split; [reflexivity|]. repeat split.
Qed.

Lemma lazyRouter_flags this ns :
  isTemplates (lazyRouter this ns) = isTemplates this
  /\ isCollection (lazyRouter this ns) = isCollection this
  /\ _name (lazyRouter this ns) = _name this
  /\ hasListeners (lazyRouter this ns) = hasListeners this
  /\ prop (lazyRouter this ns) = prop this.
Proof.
  unfold lazyRouter.
  destruct (router this) eqn:E; destruct ns; simpl; rewrite ?E; simpl;
    repeat split.
Qed.

Lemma direct_lazyRouter this ns fl :
  direct (lazyRouter this ns) fl = direct this fl.
Proof.
  unfold direct. destruct (lazyRouter_flags this ns) as (-> & -> & _).
  reflexivity.
Qed.

(** *** [handle], unfolded once *)

(** On a file of the heap [handle] records the verb, runs the host's
    middleware, and hands over to the normalized callback [cb] or, in the
    two-phase case, to the collection. *)
Lemma handle_dispatch this v f next s fl nv s1 :
  files s !! f = Some fl ->
  close_over (normalized (lazyRouter this None) v next) (started this v f fl s)
  = Ret nv s1 ->
  let run := host_phase this v f fl in
  let s2 := with_trace (trace s1 ++ fst run) s1 in
  let cb := handleError_cb (lazyRouter this None) v (Some f) nv in
  handle this v f next s =
  match snd run with
  | Some e => cb (ArgsErr e) s2
  | None =>
      if direct this fl then cb Args0 s2
      else collection_handle
             (prop this (default EmptyString
                           (o ← File.options fl; Options.collection o)))
             v f cb s2
  end.
Proof.
  intros Hfl Hc run s2 cb.
  destruct (lazyRouter_flags this None) as (_ & _ & Hname & _ & Hprop).
  destruct (close_over_binds (normalized (lazyRouter this None) v next)
              (started this v f fl s))
    as (nv' & s1' & Hc' & Hf1 & He1 & Ht1 & Hb).
  rewrite Hc in Hc'. injection Hc' as <- <-.
  assert (Hfl1 : files s1 !! f = Some (record_verb v fl)).
  { rewrite Hf1. apply lookup_insert_eq. }
  unfold handle. rewrite (bind_ret _ _ _ _ _ (read_file_some _ _ _ Hfl)).
  unfold debug, emit, write_file, log. unfold bind at 1 2 3.
  unfold handleError. unfold bind at 1. unfold bind at 1.
  rewrite Hname.
  replace (with_trace _ (with_files _ (with_trace _ s)))
    with (started this v f fl s)
    by (unfold started, with_trace, with_files; simpl;
        rewrite <- app_assoc; reflexivity).
  unfold normalized in Hc. rewrite Hc. unfold ret at 1.
  rewrite direct_lazyRouter, Hprop.
  assert (Hrun : run_stack
                   (matching (the_router (lazyRouter this None))
                      (File.path (record_verb v fl))
                      (default EmptyString
                         (o ← File.options (record_verb v fl); Options.method o)))
                   f = run) by reflexivity.
  destruct (direct this fl);
    rewrite (Router_handle_run _ _ _ _ _ Hfl1); rewrite Hrun;
    destruct (snd run); reflexivity.
Qed.

(** The callback of [handleError] only looks at the name and the error
    listeners of the host, and at what [next] does. *)
Lemma after_guard_ext app1 app2 v file n1 n2 a s :
  _name app1 = _name app2 -> hasListeners app1 = hasListeners app2 ->
  is_function n1 = is_function n2 ->
  (forall a s, call n1 a s = call n2 a s) ->
  after_guard app1 v file n1 a s = after_guard app2 v file n2 a s.
Proof.
  intros Hn Hl Hf Hcall.
  unfold after_guard, reason_of, emit, bind, read_err, modify_err,
    second_line, read_file, log, ret, raise.
  rewrite Hn, Hl, Hf.
  repeat (cbn -[call]; case_innermost); cbn -[call];
    try reflexivity; apply Hcall.
Qed.

Lemma handleError_cb_ext app1 app2 v file g1 g2 a s :
  _name app1 = _name app2 -> hasListeners app1 = hasListeners app2 ->
  (forall a s, g1 a s = g2 a s) ->
  handleError_cb app1 v file (NClosure g1) a s
  = handleError_cb app2 v file (NClosure g2) a s.
Proof.
  intros Hn Hl Hg. unfold handleError_cb. simpl. unfold bind, ret, guard. simpl.
  apply after_guard_ext; auto.
Qed.

Lemma handleError_cb_host app1 app2 v file nv a s :
  _name app1 = _name app2 -> hasListeners app1 = hasListeners app2 ->
  handleError_cb app1 v file nv a s = handleError_cb app2 v file nv a s.
Proof.
  intros Hn Hl. unfold handleError_cb, bind.
  destruct (resolve_next nv file s) as [next s0|]; [|reflexivity].
  destruct (guard next s0); [|reflexivity].
  apply after_guard_ext; auto.
Qed.

(** *** Two-phase dispatch *)

Lemma run_stack_complete ms f evs :
  run_stack ms f = (evs, None) ->
  evs = map (fun m => EvMiddleware (mw_id m) f) ms.
Proof.
  revert evs. induction ms as [|m ms IH]; simpl; intros evs H.
  - now injection H as <-.
  - destruct (mw_next m f); [discriminate|].
    destruct (run_stack ms f) as [evs' r]. injection H as <- ->.
    f_equal. now apply IH.
Qed.

Lemma with_prop_phase p this v f fl :
  host_phase (with_prop p this) v f fl = host_phase this v f fl.
Proof.
  unfold host_phase, the_router, lazyRouter, with_prop. simpl.
  destruct (router this) eqn:E; simpl; rewrite ?E; reflexivity.
Qed.

(** What [this[name]] is does not matter when the host's middleware
    fails. *)
Lemma handle_host_error_any_prop p this v f next s fl e :
  files s !! f = Some fl ->
  snd (host_phase this v f fl) = Some e ->
  handle (with_prop p this) v f next s = handle this v f next s.
Proof.
  intros Hfl He.
  destruct (close_over_binds (normalized (lazyRouter this None) v next)
              (started this v f fl s)) as (nv & s1 & Hc & _).
  destruct (close_over_binds (normalized (lazyRouter (with_prop p this) None) v next)
              (started (with_prop p this) v f fl s)) as (nv' & s1' & Hc' & _).
  rewrite (handle_dispatch _ _ _ _ _ _ _ _ Hfl Hc).
  rewrite (handle_dispatch _ _ _ _ _ _ _ _ Hfl Hc').
  rewrite with_prop_phase, He.
  destruct (lazyRouter_flags this None) as (_ & _ & Hn & Hl & _).
  destruct (lazyRouter_flags (with_prop p this) None) as (_ & _ & Hn' & Hl' & _).
  change (_name (with_prop p this)) with (_name this) in Hn'.
  change (hasListeners (with_prop p this)) with (hasListeners this) in Hl'.
  change (started (with_prop p this) v f fl s) with (started this v f fl s) in Hc'.
  unfold normalized in Hc, Hc'. destruct (is_function next).
  - rewrite Hc in Hc'. injection Hc' as <- <-.
    apply handleError_cb_host; congruence.
  - simpl in Hc, Hc'. unfold ret in Hc, Hc'.
    injection Hc as <- <-. injection Hc' as <- <-.
    apply handleError_cb_ext; try congruence. reflexivity.
Qed.

(** C2: two-phase dispatch.  On a templates-capable host that is not a
    collection, for a file whose [options.collection] names a collection of
    the host, [handle] first runs the host's middleware for the verb.  When
    all of it has passed, the collection's [handle] is called, with the
    normalized callback, in a state whose trace already holds every host
    middleware of the verb, in route order.  When one of them fails, the
    error goes to the normalized callback, in the state left by the
    middleware that ran, and the outcome is the same whatever the host has
    under that name: the collection is not called. *)
Theorem C2_host_phase_before_collection this v f next s fl o name ch :
  isTemplates this = true -> isCollection this = false ->
  files s !! f = Some fl -> File.options fl = Some o ->
  Options.collection o = Some name -> name <> EmptyString ->
  prop this name = PCollection ch ->
  let run := host_phase this v f fl in
  exists nv s2,
    let cb := handleError_cb (lazyRouter this None) v (Some f) nv in
    bound_next nv s2 = normalized (lazyRouter this None) v next
    /\ files s2 !! f = Some (record_verb v fl)
    /\ trace s2 = trace s ++ [EvDebug v (File.basename fl);
                              EvEmit (_name this) v (PFile f)] ++ fst run
    /\ match snd run with
       | Some e =>
           handle this v f next s = cb (ArgsErr e) s2
           /\ forall p, handle (with_prop p this) v f next s
                        = handle this v f next s
       | None =>
           fst run = map (fun m => EvMiddleware (mw_id m) f)
                       (matching (the_router (lazyRouter this None))
                          (File.path fl) v)
           /\ handle this v f next s = ch v f (VClosure cb) s2
       end.
Proof.
  intros Ht Hc Hfl Ho Hcol Hne Hp run.
  destruct (close_over_binds (normalized (lazyRouter this None) v next)
              (started this v f fl s))
    as (nv & s1 & Hclose & Hf1 & He1 & Ht1 & Hb).
  exists nv, (with_trace (trace s1 ++ fst run) s1).
  pose proof (handle_dispatch _ _ _ _ _ _ _ _ Hfl Hclose) as Hd.
  cbv zeta in Hd. fold run in Hd.
  assert (Hdir : direct this fl = false).
  { unfold direct. rewrite Ht, Hc, Ho. simpl. rewrite Hcol. simpl.
    destruct (String.eqb_spec name EmptyString); [contradiction|reflexivity]. }
  rewrite Hdir, Ho in Hd. simpl in Hd. rewrite Hcol in Hd. simpl in Hd.
  rewrite Hp in Hd. simpl in Hd.
  split; [exact Hb|]. split; [simpl; rewrite Hf1; apply lookup_insert_eq|].
  split; [simpl; rewrite Ht1; simpl; now rewrite <- app_assoc|].
  destruct (snd run) as [e|] eqn:Hrun.
  - split; [exact Hd|]. intros p.
    eapply handle_host_error_any_prop; eauto.
  - split; [|exact Hd].
    apply run_stack_complete. unfold run, host_phase in *.
    destruct (run_stack _ f) as [evs r]. simpl in *. now subst.
Qed.

(** *** What a dispatch leaves in the file *)

(** A property of the files that holds once the verb is recorded still
    holds when [handle] is over, if the code [handle] calls keeps it. *)
Lemma handle_final P this v f next s fl :
  files s !! f = Some fl ->
  value_keeps P next ->
  direct this fl = true \/ collections_keep P this v f ->
  P (<[f:=record_verb v fl]> (files s)) ->
  P (files (final (handle this v f next s))).
Proof.
  intros Hfl Hnext Hcoll HP.
  destruct (close_over_binds (normalized (lazyRouter this None) v next)
              (started this v f fl s))
    as (nv & s1 & Hclose & Hf1 & _ & _ & Hb).
  rewrite (handle_dispatch _ _ _ _ _ _ _ _ Hfl Hclose).
  set (cb := handleError_cb (lazyRouter this None) v (Some f) nv).
  set (s2 := with_trace _ s1).
  assert (HP2 : P (files s2)) by (simpl; now rewrite Hf1).
  assert (Hcb : cb_keeps P cb).
  { apply handleError_cb_keeps. destruct nv as [g|l]; simpl; [|exact I].
    simpl in Hb. unfold normalized in Hb.
    destruct (is_function next).
    - subst next. exact Hnext.
    - injection Hb as ->. apply fallback_keeps. }
  destruct (snd (host_phase this v f fl)); [now apply Hcb|].
  destruct (direct this fl); [now apply Hcb|].
  destruct Hcoll as [|Hcoll]; [discriminate|].
  unfold collection_handle.
  destruct (prop this _) as [|ch] eqn:Hp; [exact HP2|].
  eapply Hcoll; eauto.
Qed.

Lemma recorded_after v f fl (m : gmap nat File.t) :
  recorded v f (<[f:=record_verb v fl]> m).
Proof.
  unfold recorded, record_verb. eexists _, _, _.
  rewrite lookup_insert_eq. repeat split. apply in_or_app. right. now left.
Qed.

(** C6: when [handle(v, f, cb)] returns, [f.options.method] is [v] and
    [f.options.handled] contains [v]; [f.options] and [f.options.handled]
    are there even if the file came without them.  The callback and the
    host's collections are assumed not to undo the record. *)
Theorem C6_handle_records_verb this v f next s s' fl :
  files s !! f = Some fl ->
  value_keeps (recorded v f) next ->
  collections_keep (recorded v f) this v f ->
  handle this v f next s = Ret tt s' ->
  exists fl' o hs,
    files s' !! f = Some fl' /\ File.options fl' = Some o /\
    Options.method o = Some v /\ Options.handled o = Some hs /\ In v hs.
Proof.
  intros Hfl Hnext Hcoll Hret.
  change (recorded v f (files s')).
  replace s' with (final (handle this v f next s)) by now rewrite Hret.
  eapply handle_final; eauto. apply recorded_after.
Qed.

Lemma direct_collection c fl : isCollection c = true -> direct c fl = true.
Proof.
  intros H. unfold direct. rewrite H. now rewrite orb_true_r.
Qed.

(** A collection that carries this plugin records the verb again. *)
Lemma plugin_keeps_recorded c v f g :
  isCollection c = true ->
  cb_keeps (recorded v f) g ->
  keeps (recorded v f) (handle c v f (VClosure g)).
Proof.
  intros Hc Hg s HP. destruct HP as (fl & o & hs & Hfl & _).
  eapply handle_final; eauto.
  - left. now apply direct_collection.
  - apply recorded_after.
Qed.

Lemma handled_in_after v f fl (m : gmap nat File.t) :
  handled_in v f (<[f:=record_verb v fl]> m).
Proof.
  destruct (recorded_after v f fl m) as (fl' & o & hs & H1 & H2 & _ & H3 & H4).
  exists fl', o, hs. auto.
Qed.

Lemma plugin_keeps_handled_in c v f g :
  isCollection c = true ->
  cb_keeps (handled_in v f) g ->
  keeps (handled_in v f) (handle c v f (VClosure g)).
Proof.
  intros Hc Hg s HP. destruct HP as (fl & o & hs & Hfl & _).
  eapply handle_final; eauto.
  - left. now apply direct_collection.
  - apply handled_in_after.
Qed.

Lemma existsb_eqb_In v hs : existsb (String.eqb v) hs = true <-> In v hs.
Proof.
  rewrite existsb_exists. split.
  - intros (x & Hx & He). apply String.eqb_eq in He. now subst.
  - intros H. exists v. split; [exact H|apply String.eqb_refl].
Qed.

(** [handleOnce] on a verb already in [handled]: no dispatch. *)
Lemma handleOnce_skip this v f next s :
  handled_in v f (files s) ->
  is_function next = true ->
  handleOnce this v f next s = call next (ArgsOk (Some f)) s.
Proof.
  intros (fl & o & hs & Hfl & Ho & Hh & Hin) Hf. unfold handleOnce.
  rewrite (bind_ret _ _ _ _ _ (read_file_some _ _ _ Hfl)). rewrite Ho, Hh.
  unfold bind, ret. simpl. rewrite Hf.
  apply existsb_eqb_In in Hin. now rewrite Hin.
Qed.

(** [handleOnce] either skips, or dispatches once through [handle]. *)
Lemma handleOnce_cases this v f next s fl o :
  files s !! f = Some fl -> File.options fl = Some o ->
  let next' := if is_function next then next else VData (File.next fl) in
  (handled_in v f (files s)
   /\ handleOnce this v f next s = call next' (ArgsOk (Some f)) s)
  \/ (exists s0 fl0,
        files s0 !! f = Some fl0
        /\ files s0 = <[f:=fl0]> (files s)
        /\ File.options fl0
           = Some (Options.mk (Some (default [] (Options.handled o)))
                     (Options.method o) (Options.collection o))
        /\ existsb (String.eqb v) (default [] (Options.handled o)) = false
        /\ handleOnce this v f next s = handle this v f next' s0).
Proof.
  intros Hfl Ho next'. unfold handleOnce.
  rewrite (bind_ret _ _ _ _ _ (read_file_some _ _ _ Hfl)). rewrite Ho.
  fold next'. unfold bind, ret, write_file.
  destruct (Options.handled o) as [hs|] eqn:Hh; simpl.
  - destruct (existsb (String.eqb v) hs) eqn:Hex.
    + left. split; [|reflexivity].
      exists fl, o, hs. repeat split; auto. now apply existsb_eqb_In.
    + right. exists s, fl. split; [exact Hfl|]. split; [now rewrite insert_id|].
      split; [rewrite Ho; destruct o; simpl in *; now subst|].
      split; reflexivity.
  - right. eexists _, _. split; [|split; [|split; [|split]]].
    5: reflexivity.
    + simpl. apply lookup_insert_eq.
    + reflexivity.
    + reflexivity.
    + reflexivity.
Qed.

(** [handleOnce(v, f, cb)] twice in a row on a file that has [options].
    The first call either finds [v] in [f.options.handled] and calls
    [cb(null, f)], or goes through [handle] once; either way [v] is in
    [f.options.handled] when it is over.  The second call does not
    dispatch: it is the call [cb(null, f)] and nothing else.  The callback
    and the host's collections are assumed not to take [v] out of
    [handled]. *)
Lemma handleOnce_twice_with_options this v f cb s fl o :
  files s !! f = Some fl -> File.options fl = Some o ->
  is_function cb = true ->
  value_keeps (handled_in v f) cb ->
  collections_keep (handled_in v f) this v f ->
  let s1 := final (handleOnce this v f cb s) in
  (handleOnce this v f cb s = call cb (ArgsOk (Some f)) s
   \/ exists s0, handleOnce this v f cb s = handle this v f cb s0)
  /\ handled_in v f (files s1)
  /\ handleOnce this v f cb s1 = call cb (ArgsOk (Some f)) s1.
Proof.
  intros Hfl Ho Hf Hcb Hcoll s1.
  assert (H1 : (handleOnce this v f cb s = call cb (ArgsOk (Some f)) s
                \/ exists s0, handleOnce this v f cb s = handle this v f cb s0)
               /\ handled_in v f (files s1)).
  { subst s1.
    destruct (handleOnce_cases this v f cb s fl o Hfl Ho)
      as [[Hin Heq]|(s0 & fl0 & Hfl0 & _ & _ & _ & Heq)];
      rewrite Hf in Heq; rewrite Heq.
    - split; [now left|]. now apply Hcb.
    - split; [right; eauto|].
      eapply handle_final; eauto. apply handled_in_after. }
  destruct H1 as [H1 H2]. split; [exact H1|]. split; [exact H2|].
  now apply handleOnce_skip.
Qed.

(** C3 (what the code does): [handleOnce(v, f, cb)] twice in a row, for
    every file.  On a file that has [options] it is as the claim says: the
    first call dispatches through [handle] at most once and leaves [v] in
    [f.options.handled], and the second call is [cb(null, f)] and nothing
    else.  On a file without [options] it is not: [handleOnce] reads
    [file.options.handled] before anything has created [file.options], so
    the first call throws and changes nothing, and the second call throws
    in the same way; [cb] is never called.  The callback and the host's
    collections are assumed not to take [v] out of [handled]. *)
Theorem C3_handleOnce_twice_needs_options this v f cb s fl :
  files s !! f = Some fl ->
  is_function cb = true ->
  value_keeps (handled_in v f) cb ->
  collections_keep (handled_in v f) this v f ->
  let s1 := final (handleOnce this v f cb s) in
  match File.options fl with
  | Some _ =>
      (handleOnce this v f cb s = call cb (ArgsOk (Some f)) s
       \/ exists s0, handleOnce this v f cb s = handle this v f cb s0)
      /\ handled_in v f (files s1)
      /\ handleOnce this v f cb s1 = call cb (ArgsOk (Some f)) s1
  | None =>
      handleOnce this v f cb s
      = Raise (TypeError "Cannot read property 'handled' of undefined") s
      /\ s1 = s
      /\ handleOnce this v f cb s1
         = Raise (TypeError "Cannot read property 'handled' of undefined") s
  end.
Proof.
  intros Hfl Hf Hcb Hcoll s1.
  destruct (File.options fl) as [o|] eqn:Ho.
  - now apply (handleOnce_twice_with_options this v f cb s fl o).
  - pose proof (handleOnce_without_options this v f cb s fl Hfl Ho) as H.
    assert (H1 : s1 = s) by (subst s1; now rewrite H).
    split; [exact H|]. split; [exact H1|]. now rewrite H1.
Qed.

(** *** Counting the entries of [handled] *)

Lemma count_snoc v hs :
  length (List.filter (String.eqb v) (hs ++ [v]))
  = length (List.filter (String.eqb v) hs) + 1.
Proof.
  rewrite List.filter_app, length_app. simpl. now rewrite String.eqb_refl.
Qed.

Lemma count_absent v hs :
  existsb (String.eqb v) hs = false ->
  length (List.filter (String.eqb v) hs) = 0.
Proof.
  induction hs as [|h hs IH]; simpl; [reflexivity|].
  destruct (String.eqb v h); simpl; [discriminate|exact IH].
Qed.

Lemma occurrences_record v f fl s s' :
  files s !! f = Some fl ->
  files s' !! f = Some (record_verb v fl) ->
  occurrences v f s' = occurrences v f s + 1.
Proof.
  intros H H'. unfold occurrences. rewrite H, H'. simpl.
  rewrite count_snoc. now destruct (File.options fl).
Qed.

Lemma direct_record this v fl : direct this (record_verb v fl) = direct this fl.
Proof.
  unfold direct, record_verb. simpl. destruct (File.options fl); reflexivity.
Qed.

(** One-phase dispatch with a callback that leaves the file alone: the
    file ends as [handle] recorded it. *)
Lemma handle_direct_file this v f next s fl :
  files s !! f = Some fl -> direct this fl = true -> leaves_file f next ->
  files (final (handle this v f next s)) !! f = Some (record_verb v fl).
Proof.
  intros Hfl Hd Hn.
  apply (handle_final (fun m => m !! f = Some (record_verb v fl))
           this v f next s fl); auto.
  apply lookup_insert_eq.
Qed.

Lemma leaves_file_data f d : leaves_file f (VData d).
Proof. intros fl. apply value_keeps_data. Qed.

Lemma handle_direct_repeat this v f next n :
  leaves_file f next ->
  forall s fl,
    files s !! f = Some fl -> direct this fl = true ->
    occurrences v f (repeat_call n (handle this v f next) s)
    = occurrences v f s + n.
Proof.
  intros Hn. induction n as [|n IH]; intros s fl Hfl Hd; simpl; [lia|].
  pose proof (handle_direct_file this v f next s fl Hfl Hd Hn) as H1.
  rewrite (IH _ _ H1) by now rewrite direct_record.
  rewrite (occurrences_record _ _ _ _ _ Hfl H1). lia.
Qed.

(** One call of [handleOnce] under the same conditions adds the verb only
    where it is missing: one entry at most, or as many as there were. *)
Lemma handleOnce_direct_step this v f next s fl :
  files s !! f = Some fl -> direct this fl = true -> leaves_file f next ->
  exists fl',
    files (final (handleOnce this v f next s)) !! f = Some fl'
    /\ direct this fl' = true
    /\ occurrences v f (final (handleOnce this v f next s))
       <= Nat.max 1 (occurrences v f s).
Proof.
  intros Hfl Hd Hn.
  destruct (File.options fl) as [o|] eqn:Ho.
  - destruct (handleOnce_cases this v f next s fl o Hfl Ho)
      as [[Hin Heq]|(s0 & fl0 & Hfl0 & Hs0 & Ho0 & Hex & Heq)]; rewrite Heq.
    + assert (Hl : leaves_file f
                     (if is_function next then next else VData (File.next fl))).
      { destruct (is_function next); [exact Hn|apply leaves_file_data]. }
      pose proof (Hl fl (ArgsOk (Some f)) s Hfl) as H1.
      exists fl. split; [exact H1|]. split; [exact Hd|].
      unfold occurrences. rewrite H1, Hfl. lia.
    + assert (Hl : leaves_file f
                     (if is_function next then next else VData (File.next fl))).
      { destruct (is_function next); [exact Hn|apply leaves_file_data]. }
      assert (Hd0 : direct this fl0 = true).
      { unfold direct in *. rewrite Ho0. rewrite Ho in Hd. exact Hd. }
      pose proof (handle_direct_file this v f _ s0 fl0 Hfl0 Hd0 Hl) as H1.
      exists (record_verb v fl0). split; [exact H1|].
      split; [now rewrite direct_record|].
      unfold occurrences at 1. rewrite H1. unfold record_verb. rewrite Ho0. simpl.
      rewrite count_snoc, (count_absent _ _ Hex). lia.
  - rewrite (handleOnce_without_options this v f next s fl Hfl Ho). simpl.
    exists fl. split; [exact Hfl|]. split; [exact Hd|]. lia.
Qed.

Lemma handleOnce_direct_repeat this v f next n :
  leaves_file f next ->
  forall s fl,
    files s !! f = Some fl -> direct this fl = true ->
    occurrences v f (repeat_call n (handleOnce this v f next) s)
    <= Nat.max 1 (occurrences v f s).
Proof.
  intros Hn. induction n as [|n IH]; intros s fl Hfl Hd; simpl; [lia|].
  destruct (handleOnce_direct_step this v f next s fl Hfl Hd Hn)
    as (fl' & H1 & H2 & H3).
  pose proof (IH _ _ H1 H2). lia.
Qed.

(** C8, as the code has it: every call of [handle] appends the verb once
    before it dispatches, and [handleOnce] calls [handle] only while the
    verb is missing.  On a host that dispatches the file in one phase (not
    templates-capable, or a collection itself, or the file names no
    collection) and with a callback that does not write to the file: [n]
    calls of [handle(v, f, cb)] in a row add [n] entries [v] to
    [f.options.handled]; any number of calls of [handleOnce(v, f, cb)]
    leave one entry [v] at most, or, where [handled] had more than one to
    begin with, no more than it had. *)
Theorem C8_one_phase_counts this v f next s fl :
  files s !! f = Some fl -> direct this fl = true -> leaves_file f next ->
  (forall n, occurrences v f (repeat_call n (handle this v f next) s)
             = occurrences v f s + n)
  /\ (forall n, occurrences v f (repeat_call n (handleOnce this v f next) s)
                <= Nat.max 1 (occurrences v f s)).
Proof.
  intros Hfl Hd Hn. split.
  - intros n. eapply handle_direct_repeat; eauto.
  - intros n. eapply handleOnce_direct_repeat; eauto.
Qed.

(** *** Further properties of the dispatcher *)

(** The closure variable after [close_over]: resolving it gives [next]
    back when [next] is a function. *)
Lemma resolve_bound_function nv file s next :
  bound_next nv s = next -> is_function next = true ->
  resolve_next nv file s = Ret next s.
Proof.
  intros Hb Hf. destruct nv as [g|l]; simpl in *.
  - now subst.
  - subst next. unfold bind, read_cell.
    destruct (default JUndefined (cells s !! l)); try discriminate.
    reflexivity.
Qed.

(** No error: the callback of [handleError] calls [next(null, file)]. *)
Theorem success_goes_to_next app v file nv s next s0 :
  resolve_next nv file s = Ret next s0 ->
  is_function next = true ->
  handleError_cb app v file nv Args0 s = call next (ArgsOk file) s0.
Proof.
  intros Hr Hf. now rewrite (handleError_cb_resolved _ _ _ _ _ _ _ _ Hr Hf).
Qed.

(** A dispatch that meets no middleware, on a host that dispatches in one
    phase, ends in [callback(null, file)]: no match is not an error. *)
Theorem no_middleware_is_success this v f next s fl :
  files s !! f = Some fl ->
  direct this fl = true ->
  is_function next = true ->
  host_phase this v f fl = ([], None) ->
  exists s2,
    files s2 = <[f:=record_verb v fl]> (files s)
    /\ errors s2 = errors s
    /\ trace s2 = trace s ++ [EvDebug v (File.basename fl);
                              EvEmit (_name this) v (PFile f)]
    /\ handle this v f next s = call next (ArgsOk (Some f)) s2.
Proof.
  intros Hfl Hd Hf Hrun.
  destruct (close_over_binds (normalized (lazyRouter this None) v next)
              (started this v f fl s))
    as (nv & s1 & Hc & Hf1 & He1 & Ht1 & Hb).
  rewrite (handle_dispatch _ _ _ _ _ _ _ _ Hfl Hc).
  rewrite Hrun, Hd. simpl.
  unfold normalized in Hb. rewrite Hf in Hb.
  exists (with_trace (trace s1 ++ []) s1).
  split; [exact Hf1|]. split; [exact He1|].
  split; [simpl; rewrite app_nil_r; exact Ht1|].
  rewrite (handleError_cb_resolved _ _ _ _ _ _ next
             (with_trace (trace s1 ++ []) s1)); [reflexivity| |exact Hf].
  now apply resolve_bound_function.
Qed.

(** [lazyRouter] creates the router once: with a router in place it
    changes nothing, and after it has run there is one. *)
Theorem lazyRouter_creates_once this :
  (forall r, router this = Some r -> lazyRouter this None = this)
  /\ router (lazyRouter this None) <> None
  /\ lazyRouter (lazyRouter this None) None = lazyRouter this None.
Proof.
  assert (H1 : forall h r, router h = Some r -> lazyRouter h None = h).
  { intros h r Hr. unfold lazyRouter. now rewrite Hr. }
  assert (H2 : router (lazyRouter this None) <> None).
  { unfold lazyRouter. destruct (router this) eqn:E; simpl; congruence. }
  split; [apply H1|]. split; [exact H2|].
  destruct (router (lazyRouter this None)) eqn:E; [|contradiction].
  eapply H1; eauto.
Qed.

(** [handleOnce] without a usable callback falls back on [file.next]. *)
Theorem handleOnce_falls_back_on_file_next this v f next s fl :
  files s !! f = Some fl ->
  handled_in v f (files s) ->
  is_function next = false ->
  handleOnce this v f next s = call (VData (File.next fl)) (ArgsOk (Some f)) s.
Proof.
  intros Hfl (fl' & o & hs & Hfl' & Ho & Hh & Hin) Hf.
  rewrite Hfl in Hfl'. injection Hfl' as <-.
  unfold handleOnce.
  rewrite (bind_ret _ _ _ _ _ (read_file_some _ _ _ Hfl)). rewrite Ho, Hh.
  unfold bind, ret. simpl. rewrite Hf.
  apply existsb_eqb_In in Hin. now rewrite Hin.
Qed.

(** *** A dispatch without a callback *)

Lemma enrich_lazyRouter this ns v f fl l er :
  enrich (lazyRouter this ns) v f (record_verb v fl) l er = enrich this v f fl l er.
Proof.
  unfold enrich, reason_of.
  destruct (lazyRouter_flags this ns) as (_ & _ & -> & _). reflexivity.
Qed.

Lemma announce_lazyRouter this ns e :
  announce (lazyRouter this ns) e = announce this e.
Proof.
  unfold announce.
  destruct (lazyRouter_flags this ns) as (_ & _ & -> & -> & _). reflexivity.
Qed.

(** C1 (what the code does): [handle] called without a callback, on a
    dispatch whose host middleware fails with an error seen for the first
    time.  The error reaches the callback of [handleError], is marked,
    enriched and announced, and is then handed to the made-up callback,
    which builds a closure with [handleError] and drops it.  The [throw err]
    inside is never reached: [handle] returns, and the error is not
    raised. *)
Theorem C1_missing_callback_swallows_error this v f next s fl e er st l :
  files s !! f = Some fl ->
  is_function next = false ->
  snd (host_phase this v f fl) = Some e ->
  errors s !! e = Some er -> Err._handled er = false ->
  Err.stack er = Some st -> split LF st !! 1 = Some l ->
  handle this v f next s =
  Ret tt
    (mkState (<[f:=record_verb v fl]> (files s))
       (<[e:=enrich this v f fl l er]> (errors s))
       (cells s)
       ((trace s ++ [EvDebug v (File.basename fl);
                     EvEmit (_name this) v (PFile f)]
           ++ fst (host_phase this v f fl))
          ++ announce this e)).
Proof.
  intros Hfl Hf Hrun He Hh Hst Hl.
  assert (Hc : close_over (normalized (lazyRouter this None) v next)
                 (started this v f fl s)
               = Ret (NClosure (fallback (lazyRouter this None) v))
                   (started this v f fl s)).
  { unfold normalized. now rewrite Hf. }
  rewrite (handle_dispatch _ _ _ _ _ _ _ _ Hfl Hc). rewrite Hrun.
  set (s2 := with_trace _ _).
  assert (Hfl2 : files s2 !! f = Some (record_verb v fl))
    by apply lookup_insert_eq.
  rewrite (first_sighting _ _ _ _ _ s2 (VClosure (fallback (lazyRouter this None) v))
             s2 er (record_verb v fl) st l); auto.
  unfold call. rewrite fallback_returns.
  rewrite enrich_lazyRouter, announce_lazyRouter.
  subst s2. simpl. now rewrite <- !app_assoc.
Qed.

(** *** What [handle] writes *)

Lemma writes_no_file_keeps P v : writes_no_file v -> value_keeps P v.
Proof. intros H a s HP. now rewrite H. Qed.

Lemma writes_no_file_data d : writes_no_file (VData d).
Proof. intros a s. apply call_data_files. Qed.

Lemma handle_one_phase_files this v f next s fl :
  files s !! f = Some fl ->
  direct this fl = true ->
  writes_no_file next ->
  files (final (handle this v f next s)) = <[f:=record_verb v fl]> (files s).
Proof.
  intros Hfl Hd Hn.
  apply (handle_final (fun m => m = <[f:=record_verb v fl]> (files s))
           this v f next s fl); auto.
  now apply writes_no_file_keeps.
Qed.

(** One-phase dispatch writes [file.options] of the dispatched file and
    nothing else: the other fields of the file and every other file are as
    they were. *)
Theorem handle_writes_only_options this v f next s fl :
  files s !! f = Some fl ->
  direct this fl = true ->
  writes_no_file next ->
  files (final (handle this v f next s)) = <[f:=record_verb v fl]> (files s)
  /\ File.path (record_verb v fl) = File.path fl
  /\ File.basename (record_verb v fl) = File.basename fl
  /\ File.content (record_verb v fl) = File.content fl
  /\ File.data (record_verb v fl) = File.data fl
  /\ File.next (record_verb v fl) = File.next fl
  /\ forall f', f' <> f ->
       files (final (handle this v f next s)) !! f' = files s !! f'.
Proof.
  intros Hfl Hd Hn.
  pose proof (handle_one_phase_files this v f next s fl Hfl Hd Hn) as H.
  split; [exact H|]. repeat (split; [reflexivity|]).
  intros f' Hne. rewrite H. now apply lookup_insert_ne.
Qed.

Lemma record_verb_handled v fl :
  handled_of (record_verb v fl) = handled_of fl ++ [v].
Proof. unfold handled_of, record_verb. simpl. now destruct (File.options fl). Qed.

Lemma handle_each_file this vs f next :
  writes_no_file next ->
  forall s fl,
    files s !! f = Some fl -> direct this fl = true ->
    files (handle_each this vs f next s) !! f
    = Some (fold_left (fun fl v => record_verb v fl) vs fl).
Proof.
  intros Hn. induction vs as [|v vs IH]; intros s fl Hfl Hd; simpl; [exact Hfl|].
  pose proof (handle_one_phase_files this v f next s fl Hfl Hd Hn) as H.
  apply IH.
  - rewrite H. apply lookup_insert_eq.
  - now rewrite direct_record.
Qed.

Lemma fold_record_handled vs fl :
  handled_of (fold_left (fun fl v => record_verb v fl) vs fl) = handled_of fl ++ vs.
Proof.
  revert fl. induction vs as [|v vs IH]; intros fl; simpl.
  - now rewrite app_nil_r.
  - rewrite IH, record_verb_handled. now rewrite <- app_assoc.
Qed.

Lemma fold_record_method vs v fl :
  (o ← File.options (fold_left (fun fl v => record_verb v fl) (vs ++ [v]) fl);
   Options.method o) = Some v.
Proof. rewrite fold_left_app. reflexivity. Qed.

(** Direct [handle] calls for the verbs [vs], one after the other, on a
    host that dispatches in one phase: [file.options.handled] grows by
    exactly [vs], in call order and duplicates included, and
    [file.options.method] is the verb of the last call. *)
Theorem handle_each_appends_in_order this vs v f next s fl :
  files s !! f = Some fl ->
  direct this fl = true ->
  writes_no_file next ->
  exists fl',
    files (handle_each this (vs ++ [v]) f next s) !! f = Some fl'
    /\ handled_of fl' = handled_of fl ++ vs ++ [v]
    /\ (o ← File.options fl'; Options.method o) = Some v.
Proof.
  intros Hfl Hd Hn.
  exists (fold_left (fun fl v => record_verb v fl) (vs ++ [v]) fl).
  split; [apply handle_each_file; assumption|].
  split; [apply fold_record_handled|apply fold_record_method].
Qed.

(** *** [handleOnce] against [handle] *)

(** [handle] does not see whether [handled] is absent or empty. *)
Lemma handle_on_normalized this v f next s fl o :
  files s !! f = Some fl -> File.options fl = Some o ->
  Options.handled o = None ->
  handle this v f next
    (with_files
       (<[f:=File.set_options
               (Some (Options.mk (Some []) (Options.method o)
                        (Options.collection o))) fl]> (files s)) s)
  = handle this v f next s.
Proof.
  intros Hfl Ho Hh.
  set (fl0 := File.set_options _ fl). set (s0 := with_files _ s).
  assert (Hfl0 : files s0 !! f = Some fl0) by apply lookup_insert_eq.
  assert (Hrec : record_verb v fl0 = record_verb v fl).
  { unfold record_verb, fl0. rewrite Ho. simpl. now rewrite Hh. }
  assert (Hdir : forall h, direct h fl0 = direct h fl).
  { intros h. unfold direct, fl0. now rewrite Ho. }
  assert (Hcol : (o ← File.options fl0; Options.collection o)
                 = (o ← File.options fl; Options.collection o)).
  { unfold fl0. now rewrite Ho. }
  unfold handle.
  rewrite (bind_ret _ _ _ _ _ (read_file_some _ _ _ Hfl)).
  rewrite (bind_ret _ _ _ _ _ (read_file_some _ _ _ Hfl0)).
  rewrite Hrec, Hdir, Hcol.
  change (File.basename fl0) with (File.basename fl).
  unfold debug, emit, write_file, log. unfold bind at 1 2 3.
  unfold bind at 2 3 4. cbn [files with_files with_trace errors cells trace s0].
  now rewrite insert_insert_eq.
Qed.

(** With a callable callback and a verb that is not in [handled] yet,
    [handleOnce] is [handle]: same outcome, same state. *)
Theorem handleOnce_is_handle_on_new_verb this v f next s fl o :
  files s !! f = Some fl -> File.options fl = Some o ->
  is_function next = true ->
  existsb (String.eqb v) (handled_of fl) = false ->
  handleOnce this v f next s = handle this v f next s.
Proof.
  intros Hfl Ho Hf Hex.
  unfold handled_of in Hex. rewrite Ho in Hex. simpl in Hex.
  unfold handleOnce.
  rewrite (bind_ret _ _ _ _ _ (read_file_some _ _ _ Hfl)). rewrite Ho, Hf.
  unfold bind. destruct (Options.handled o) as [hs|] eqn:Hh; simpl in *.
  - unfold ret. now rewrite Hex.
  - unfold write_file. now apply handle_on_normalized.
Qed.

Lemma add_once_NoDup hs v : NoDup hs -> NoDup (add_once hs v).
Proof.
  intros H. unfold add_once.
  destruct (existsb (String.eqb v) hs) eqn:Hex; [exact H|].
  apply NoDup_app. split; [exact H|]. split; [|apply NoDup_singleton].
  intros x Hx Hv. apply list_elem_of_singleton in Hv. subst x.
  apply list_elem_of_In, existsb_eqb_In in Hx. congruence.
Qed.

(** One [handleOnce] under one-phase dispatch: the verb joins [handled]
    unless it is there. *)
Lemma handleOnce_step this v f next s fl o :
  files s !! f = Some fl -> File.options fl = Some o ->
  direct this fl = true -> writes_no_file next ->
  exists fl' o',
    files (final (handleOnce this v f next s)) !! f = Some fl'
    /\ File.options fl' = Some o'
    /\ direct this fl' = true
    /\ handled_of fl' = add_once (handled_of fl) v.
Proof.
  intros Hfl Ho Hd Hn.
  assert (Hn' : writes_no_file
                  (if is_function next then next else VData (File.next fl))).
  { destruct (is_function next); [exact Hn|apply writes_no_file_data]. }
  destruct (handleOnce_cases this v f next s fl o Hfl Ho)
    as [[Hin Heq]|(s0 & fl0 & Hfl0 & Hs0 & Ho0 & Hex & Heq)]; rewrite Heq.
  - exists fl, o. rewrite Hn'. repeat (split; [assumption|]).
    destruct Hin as (fl1 & o1 & hs & H1 & H2 & H3 & H4).
    rewrite Hfl in H1. injection H1 as <-.
    unfold add_once, handled_of. rewrite H2. simpl. rewrite H3. simpl.
    apply existsb_eqb_In in H4. now rewrite H4.
  - assert (Hd0 : direct this fl0 = true).
    { unfold direct in *. rewrite Ho0. rewrite Ho in Hd. exact Hd. }
    pose proof (handle_one_phase_files this v f _ s0 fl0 Hfl0 Hd0 Hn') as H.
    exists (record_verb v fl0). eexists.
    rewrite H. split; [apply lookup_insert_eq|]. split; [reflexivity|].
    split; [now rewrite direct_record|].
    rewrite record_verb_handled. unfold add_once, handled_of.
    rewrite Ho0, Ho. simpl. now rewrite Hex.
Qed.

(** [handleOnce] for the verbs [vs], one after the other, on a host that
    dispatches in one phase and a file that has [options]: each verb joins
    [file.options.handled] the first time it is met and never again, so a
    list without duplicates stays without duplicates. *)
Theorem handleOnce_each_keeps_handled_duplicate_free this vs f next s fl o :
  files s !! f = Some fl -> File.options fl = Some o ->
  direct this fl = true ->
  writes_no_file next ->
  exists fl',
    files (handleOnce_each this vs f next s) !! f = Some fl'
    /\ handled_of fl' = fold_left add_once vs (handled_of fl)
    /\ (NoDup (handled_of fl) -> NoDup (handled_of fl')).
Proof.
  intros Hfl Ho Hd Hn. revert s fl o Hfl Ho Hd.
  induction vs as [|v vs IH]; intros s fl o Hfl Ho Hd; simpl.
  - exists fl. auto.
  - destruct (handleOnce_step this v f next s fl o Hfl Ho Hd Hn)
      as (fl1 & o1 & H1 & H2 & H3 & H4).
    destruct (IH _ _ _ H1 H2 H3) as (fl' & Ha & Hb & Hc).
    exists fl'. split; [exact Ha|]. split; [now rewrite Hb, H4|].
    intros Hnd. apply Hc. rewrite H4. now apply add_once_NoDup.
Qed.

(** *** Edges of the dispatch *)

(** The state in which the host's middleware has run. *)
Lemma handle_reaches_callback this v f next s fl :
  files s !! f = Some fl ->
  exists nv s2,
    files s2 = <[f:=record_verb v fl]> (files s)
    /\ errors s2 = errors s
    /\ trace s2 = trace s ++ [EvDebug v (File.basename fl);
                              EvEmit (_name this) v (PFile f)]
                    ++ fst (host_phase this v f fl)
    /\ bound_next nv s2 = normalized (lazyRouter this None) v next
    /\ handle this v f next s =
       let cb := handleError_cb (lazyRouter this None) v (Some f) nv in
       match snd (host_phase this v f fl) with
       | Some e => cb (ArgsErr e) s2
       | None =>
           if direct this fl then cb Args0 s2
           else collection_handle
                  (prop this (default EmptyString
                                (o ← File.options fl; Options.collection o)))
                  v f cb s2
       end.
Proof.
  intros Hfl.
  destruct (close_over_binds (normalized (lazyRouter this None) v next)
              (started this v f fl s))
    as (nv & s1 & Hc & Hf1 & He1 & Ht1 & Hb).
  exists nv, (with_trace (trace s1 ++ fst (host_phase this v f fl)) s1).
  split; [exact Hf1|]. split; [exact He1|].
  split; [simpl; rewrite Ht1; simpl; now rewrite <- app_assoc|].
  split; [exact Hb|].
  exact (handle_dispatch _ _ _ _ _ _ _ _ Hfl Hc).
Qed.

Lemma two_phase_not_direct this fl o name :
  isTemplates this = true -> isCollection this = false ->
  File.options fl = Some o -> Options.collection o = Some name ->
  name <> EmptyString ->
  direct this fl = false
  /\ default EmptyString (o ← File.options fl; Options.collection o) = name.
Proof.
  intros Ht Hc Ho Hcol Hne. unfold direct. rewrite Ht, Hc, Ho. simpl.
  rewrite Hcol. simpl. split; [|reflexivity].
  destruct (String.eqb_spec name EmptyString); [contradiction|reflexivity].
Qed.

(** A middleware error that is already marked handled: the callback given
    to [handle] is called with no argument at all, neither the error nor
    the file. *)
Theorem handled_error_reaches_callback_bare this v f next s fl e er :
  files s !! f = Some fl ->
  is_function next = true ->
  snd (host_phase this v f fl) = Some e ->
  errors s !! e = Some er -> Err._handled er = true ->
  exists s2,
    handle this v f next s = call next Args0 s2
    /\ files s2 = <[f:=record_verb v fl]> (files s)
    /\ errors s2 = errors s
    /\ trace s2 = trace s ++ [EvDebug v (File.basename fl);
                              EvEmit (_name this) v (PFile f)]
                    ++ fst (host_phase this v f fl).
Proof.
  intros Hfl Hf Hrun He Hh.
  destruct (handle_reaches_callback this v f next s fl Hfl)
    as (nv & s2 & H1 & H2 & H3 & H4 & H5).
  exists s2. rewrite H5, Hrun. cbv zeta.
  unfold normalized in H4. rewrite Hf in H4.
  split; [|auto].
  apply (seen_before _ _ _ _ _ _ _ _ er).
  - now apply resolve_bound_function.
  - exact Hf.
  - now rewrite H2.
  - exact Hh.
Qed.

(** *** Two phases with a collection that carries the plugin *)

Lemma normalized_callback_keeps P this v next nv s :
  value_keeps P next ->
  bound_next nv s = normalized this v next ->
  nextvar_keeps P nv.
Proof.
  intros Hn Hb. destruct nv as [g|l]; simpl; [|exact I].
  simpl in Hb. unfold normalized in Hb. destruct (is_function next).
  - subst next. exact Hn.
  - injection Hb as ->. apply fallback_keeps.
Qed.

(** Two-phase dispatch whose host middleware passes, with a collection
    that runs this plugin: the collection's [handle] records the verb a
    second time, so one call leaves the verb twice in
    [file.options.handled]; nothing else is written to the files. *)
Theorem two_phase_records_verb_twice this c v f next s fl o name :
  isTemplates this = true -> isCollection this = false ->
  files s !! f = Some fl -> File.options fl = Some o ->
  Options.collection o = Some name -> name <> EmptyString ->
  prop this name = plugin_collection c -> isCollection c = true ->
  snd (host_phase this v f fl) = None ->
  writes_no_file next ->
  files (final (handle this v f next s))
  = <[f:=record_verb v (record_verb v fl)]> (files s)
  /\ handled_of (record_verb v (record_verb v fl)) = handled_of fl ++ [v; v].
Proof.
  intros Ht Hc Hfl Ho Hcol Hne Hp Hcc Hrun Hn.
  split; [|rewrite !record_verb_handled; now rewrite <- app_assoc].
  destruct (handle_reaches_callback this v f next s fl Hfl)
    as (nv & s2 & H1 & H2 & H3 & H4 & H5).
  destruct (two_phase_not_direct this fl o name Ht Hc Ho Hcol Hne) as [Hd Hnm].
  rewrite H5, Hrun, Hd, Hnm, Hp. cbv zeta.
  unfold plugin_collection, collection_handle.
  assert (Hfl2 : files s2 !! f = Some (record_verb v fl)).
  { rewrite H1. apply lookup_insert_eq. }
  apply (handle_final
           (fun m => m = <[f:=record_verb v (record_verb v fl)]> (files s))
           c v f _ s2 (record_verb v fl)); auto.
  - apply (handleError_cb_keeps _ (lazyRouter this None) v (Some f) nv).
    eapply normalized_callback_keeps; eauto.
    now apply writes_no_file_keeps.
  - left. now apply direct_collection.
  - rewrite H1. apply insert_insert_eq.
Qed.

(** An error raised by the collection's middleware in two-phase dispatch
    never reaches the callback: the collection's error callback marks and
    enriches it (with the collection's name) and forwards it to the host's
    error callback, which finds it marked and calls the callback given to
    [handle] with no argument. *)
Theorem collection_error_reaches_callback_bare
  this c v f next s fl o name e er st l :
  isTemplates this = true -> isCollection this = false ->
  files s !! f = Some fl -> File.options fl = Some o ->
  Options.collection o = Some name -> name <> EmptyString ->
  prop this name = plugin_collection c -> isCollection c = true ->
  is_function next = true ->
  snd (host_phase this v f fl) = None ->
  snd (host_phase c v f (record_verb v fl)) = Some e ->
  errors s !! e = Some er -> Err._handled er = false ->
  Err.isReferenceError er = false ->
  Err.stack er = Some st -> split LF st !! 1 = Some l ->
  exists s',
    handle this v f next s = call next Args0 s'
    /\ files s' = <[f:=record_verb v (record_verb v fl)]> (files s)
    /\ errors s' = <[e:=enrich c v f fl l er]> (errors s).
Proof.
  intros Ht Hc Hfl Ho Hcol Hne Hp Hcc Hf Hrun Hrun2 He Hh Href Hst Hl.
  destruct (handle_reaches_callback this v f next s fl Hfl)
    as (nv & s2 & H1 & H2 & H3 & H4 & H5).
  destruct (two_phase_not_direct this fl o name Ht Hc Ho Hcol Hne) as [Hd Hnm].
  rewrite H5, Hrun, Hd, Hnm, Hp. cbv zeta.
  unfold plugin_collection, collection_handle.
  set (cb := handleError_cb (lazyRouter this None) v (Some f) nv).
  assert (Hfl2 : files s2 !! f = Some (record_verb v fl)).
  { rewrite H1. apply lookup_insert_eq. }
  assert (Hc2 : close_over (normalized (lazyRouter c None) v (VClosure cb))
                  (started c v f (record_verb v fl) s2)
                = Ret (NClosure cb) (started c v f (record_verb v fl) s2))
    by reflexivity.
  rewrite (handle_dispatch _ _ _ _ _ _ _ _ Hfl2 Hc2). rewrite Hrun2.
  set (s3 := with_trace _ _).
  assert (Hfl3 : files s3 !! f = Some (record_verb v (record_verb v fl)))
    by apply lookup_insert_eq.
  assert (He3 : errors s3 !! e = Some er) by (simpl; now rewrite H2).
  rewrite (first_sighting _ _ _ _ _ s3 (VClosure cb) s3 er
             (record_verb v (record_verb v fl)) st l); auto.
  rewrite Href. set (s4 := mkState _ _ _ _).
  unfold call. unfold cb.
  unfold normalized in H4. rewrite Hf in H4.
  exists s4. split.
  - apply (seen_before _ _ _ _ _ _ _ _
             (enrich (lazyRouter c None) v f (record_verb v (record_verb v fl)) l er)).
    + apply resolve_bound_function; [|exact Hf].
      rewrite <- H4. destruct nv; reflexivity.
    + exact Hf.
    + apply lookup_insert_eq.
    + reflexivity.
  - split.
    + simpl. rewrite H1. apply insert_insert_eq.
    + unfold s4. cbn [errors]. unfold s3. cbn [errors with_trace started].
      rewrite H2. rewrite enrich_lazyRouter. reflexivity.
Qed.

(** *** The closure variable [next] *)

Lemma after_guard_data_cells app v file d a s :
  cells (final (after_guard app v file (VData d) a s)) = cells s.
Proof.
  unfold after_guard, call, host_call, bind, read_err, modify_err, second_line,
    read_file, emit, log, ret, raise.
  repeat (cbn; case_innermost); cbn; reflexivity.
Qed.

(** A callback of [handleError] made without [next] takes [file.next] the
    first time it is invoked and keeps it: from then on [file.next] is not
    read again, so replacing or removing it (or the file) changes nothing
    for this callback. *)
Theorem callback_keeps_first_file_next app v f l a s fl h :
  l < length (cells s) ->
  truthy (default JUndefined (cells s !! l)) = false ->
  files s !! f = Some fl -> File.next fl = JFunction h ->
  handleError_cb app v (Some f) (NCell l) a s
  = after_guard app v (Some f) (VData (JFunction h)) a
      (with_cells (<[l:=JFunction h]> (cells s)) s)
  /\ cells (final (handleError_cb app v (Some f) (NCell l) a s)) !! l
     = Some (JFunction h)
  /\ forall a' s2,
       cells s2 !! l = Some (JFunction h) ->
       handleError_cb app v (Some f) (NCell l) a' s2
       = after_guard app v (Some f) (VData (JFunction h)) a' s2.
Proof.
  intros Hl Hd Hfl Hn.
  assert (H1 : handleError_cb app v (Some f) (NCell l) a s
               = after_guard app v (Some f) (VData (JFunction h)) a
                   (with_cells (<[l:=JFunction h]> (cells s)) s)).
  { apply handleError_cb_resolved; [|reflexivity].
    simpl. unfold bind, read_cell. rewrite Hd.
    rewrite (read_file_some _ _ _ Hfl). unfold write_cell, ret. now rewrite Hn. }
  split; [exact H1|]. split.
  - rewrite H1, after_guard_data_cells. simpl.
    now apply list_lookup_insert_eq.
  - intros a' s2 Hc. apply handleError_cb_resolved; [|reflexivity].
    simpl. unfold bind, read_cell. now rewrite Hc.
Qed.

(** *** Registration and dispatch *)


(** The route that [router.route(path)] finds is one of the router's, and
    its path is equal to the one asked for. *)
Lemma find_route_found pat rts i :
  find_route pat rts = Some i ->
  exists rt, rts !! i = Some rt /\ same_path (rt_match rt) pat = true.
Proof.
  revert i. induction rts as [|rt rts IH]; intros i; simpl; [discriminate|].
  destruct (same_path (rt_match rt) pat) eqn:E.
  - intros [= <-]. exists rt. now split.
  - destruct (find_route pat rts) as [j|]; simpl; [|discriminate].
    intros [= <-]. now apply IH.
Qed.








(** The error callback whose [next] is plain data (a host function or not a
    function at all) writes to the error object it is given and to nothing
    else: every file and every other error object is as it was, whether the
    callback returns or throws. *)
Theorem error_callback_writes_only_its_error app v file l a s :
  files (final (handleError_cb app v file (NCell l) a s)) = files s
  /\ forall e', arg_err a <> Some e' ->
       errors (final (handleError_cb app v file (NCell l) a s)) !! e'
       = errors s !! e'.
Proof.
  unfold handleError_cb, resolve_next, guard, after_guard, call, host_call,
    bind, read_cell, write_cell, read_err, modify_err, second_line, read_file,
    emit, log, ret, raise.
  split.
  - repeat (cbn; case_innermost); cbn; reflexivity.
  - intros e' Hne.
    repeat (cbn; case_innermost); cbn; try reflexivity;
      rewrite ?lookup_insert_ne by congruence; reflexivity.
Qed.

(** [handleOnce] sees what a direct [handle] recorded: after
    [handle(v, f, cb)], however that call ended, [handleOnce(v, f, cb)]
    does not dispatch again and is the call [cb(null, f)].  The callback
    and the host's collections are assumed not to take [v] out of
    [handled]. *)
Theorem handleOnce_after_handle_skips this v f next cb s fl :
  files s !! f = Some fl ->
  is_function cb = true ->
  value_keeps (handled_in v f) next ->
  collections_keep (handled_in v f) this v f ->
  let s1 := final (handle this v f next s) in
  handleOnce this v f cb s1 = call cb (ArgsOk (Some f)) s1.
Proof.
  intros Hfl Hf Hn Hc s1. apply handleOnce_skip; [|exact Hf].
  subst s1. eapply handle_final; eauto. apply handled_in_after.
Qed.

End Dispatcher.

(** ** The theorems at work on the sample inputs *)

(** A first pass and a second pass of the sample error through a callback
    whose [next] is the host function 7. *)
Lemma C4_witness :
  let app := plain_host "app" [] in
  let next := VClosure (host_call cb7) in
  let s := heap a_md in
  let l := "    at render (a.md:1:3)" in
  let s1 := mkState (files s) (<[0:=enrich app "onLoad" 0 a_md l boom]> (errors s))
              (cells s) (trace s ++ announce app 0) in
  (exists fwd,
      handleError_cb keep_error app "onLoad" (Some 0) (NClosure (host_call cb7))
        (ArgsErr 0) s
      = call next (ArgsErr fwd) s1)
  /\ errors s1 !! 0 = Some (enrich app "onLoad" 0 a_md l boom)
  /\ Err._handled (enrich app "onLoad" 0 a_md l boom) = true
  /\ Err.source (enrich app "onLoad" 0 a_md l boom) = Some (trim l)
  /\ Err.reason (enrich app "onLoad" 0 a_md l boom)
     = Some (reason_of app "onLoad" (File.path a_md))
  /\ forall s2 er2 next2 s3,
       errors s2 !! 0 = Some er2 -> Err._handled er2 = true ->
       resolve_next (NClosure (host_call cb7)) (Some 0) s2 = Ret next2 s3 ->
       is_function next2 = true ->
       handleError_cb keep_error app "onLoad" (Some 0) (NClosure (host_call cb7))
         (ArgsErr 0) s2
       = call next2 Args0 s3
       /\ errors s3 !! 0 = Some er2.
Proof.
  apply (C4_handled_error_passes_through keep_error (plain_host "app" []) "onLoad"
           0 (NClosure (host_call cb7)) 0 (heap a_md) (VClosure (host_call cb7))
           (heap a_md) boom a_md
           ("ReferenceError: title is not defined"
            ++ String LF "    at render (a.md:1:3)")%string
           "    at render (a.md:1:3)");
    reflexivity.
Defined.

Lemma C5_witness :
  let app := plain_host "app" [] in
  let next := VClosure (host_call cb7) in
  let s := heap a_md in
  let l := "    at render (a.md:1:3)" in
  let s1 := mkState (files s) (<[0:=enrich app "onLoad" 0 a_md l boom]> (errors s))
              (cells s) (trace s ++ announce app 0) in
  handleError_cb map_error app "onLoad" (Some 0) (NClosure (host_call cb7))
    (ArgsErr 0) s
  = match map_error (File.content a_md) (File.data a_md) with
    | Some e' => call next (ArgsErr e') s1
    | None => call next (ArgsErr 0) s1
    end.
Proof.
  apply (C5_reference_error_goes_through_rethrow map_error (plain_host "app" [])
           "onLoad" 0 (NClosure (host_call cb7)) 0 (heap a_md)
           (VClosure (host_call cb7)) (heap a_md) boom a_md
           ("ReferenceError: title is not defined"
            ++ String LF "    at render (a.md:1:3)")%string
           "    at render (a.md:1:3)");
    reflexivity.
Defined.

Lemma C10_witness :
  let app := plain_host "app" [] in
  let s := heap_with a_md mute [] in
  exists msg,
    handleError_cb keep_error app "onLoad" (Some 0) (NClosure (host_call cb7))
      (ArgsErr 0) s
    = Raise (TypeError msg)
        (with_errors (<[0:=Err.set_handled true mute]> (errors s)) s).
Proof.
  apply (C10_enrichment_needs_second_line keep_error (plain_host "app" [])
           "onLoad" 0 (NClosure (host_call cb7)) 0 (heap_with a_md mute [])
           (VClosure (host_call cb7)) (heap_with a_md mute []) mute);
    reflexivity.
Defined.

Lemma C7_witness :
  let app := plain_host "app" [] in
  let s := heap_with a_md boom [JUndefined] in
  exists s0,
    files s0 = files s /\ errors s0 = errors s /\ trace s0 = trace s
    /\ handleError_cb keep_error app "onLoad" (Some 0) (NCell 0) Args0 s
       = Raise (TypeError "expected a callback function") s0.
Proof.
  apply (C7_guard_on_next_or_file_next keep_error (plain_host "app" []) "onLoad"
           0 (NCell 0) Args0 (heap_with a_md boom [JUndefined]) a_md);
    reflexivity.
Defined.

(** C7, as it is stated, fails: here [file.next] is a function, the bound
    [next] is the string ["x"], and the callback throws its [TypeError]
    all the same, because ["x" || file.next] is ["x"]. *)
Lemma C7_counterexample :
  is_function (VData (File.next b_md)) = true
  /\ (let* cb := handleError keep_error (plain_host "app" []) "onLoad" (Some 0)
                   (VData (JStr "x")) in
      cb Args0) (heap b_md)
     = Raise (TypeError "expected a callback function")
         (heap_with b_md boom [JStr "x"]).
Proof. split; reflexivity. Qed.

(** C8, as it is stated, fails in two-phase dispatch: the collection runs
    the same [handle] and appends the verb a second time, so that one call
    of [handle], and one call of [handleOnce], each leave two entries.  It
    also fails in one-phase dispatch on a file that direct calls of
    [handle] have left with two entries: calls of [handleOnce] leave the
    two. *)
Lemma C8_counterexample :
  let this := templates_host keep_error sample_methods [] [] in
  let s := heap (a_md_in "pages") in
  let plain := plain_host "app" [] in
  let cb := VData (JFunction cb7) in
  let s2 := repeat_call 2 (handle keep_error sample_methods plain "onLoad" 0 cb)
              (heap a_md) in
  occurrences "onLoad" 0 s = 0
  /\ occurrences "onLoad" 0
       (repeat_call 1 (handle keep_error sample_methods this "onLoad" 0 cb) s) = 2
  /\ occurrences "onLoad" 0
       (repeat_call 1 (handleOnce keep_error sample_methods this "onLoad" 0 cb) s) = 2
  /\ occurrences "onLoad" 0 s2 = 2
  /\ occurrences "onLoad" 0
       (repeat_call 3 (handleOnce keep_error sample_methods plain "onLoad" 0 cb) s2) = 2.
Proof. repeat split; vm_compute; reflexivity. Qed.

Lemma C8_witness :
  let this := plain_host "app" [("onLoad", passes 1)] in
  let s := heap a_md in
  (forall n,
      occurrences "onLoad" 0
        (repeat_call n (handle keep_error sample_methods this "onLoad" 0
                          (VData (JFunction cb7))) s)
      = occurrences "onLoad" 0 s + n)
  /\ (forall n,
         occurrences "onLoad" 0
           (repeat_call n (handleOnce keep_error sample_methods this "onLoad" 0
                             (VData (JFunction cb7))) s)
         <= Nat.max 1 (occurrences "onLoad" 0 s)).
Proof.
  apply (C8_one_phase_counts keep_error sample_methods
           (plain_host "app" [("onLoad", passes 1)]) "onLoad" 0
           (VData (JFunction cb7)) (heap a_md) a_md).
  - reflexivity.
  - reflexivity.
  - apply leaves_file_data.
Defined.

(** The hypotheses of C2 on a sample host with the collection [pages]. *)
Lemma C2_witness :
  let this := templates_host keep_error sample_methods
                [("onLoad", passes 1)] [("onLoad", passes 2)] in
  let next := VData (JFunction cb7) in
  let s := heap (a_md_in "pages") in
  let fl := a_md_in "pages" in
  let ch := handle keep_error sample_methods (pages [("onLoad", passes 2)]) in
  let run := host_phase sample_methods this "onLoad" 0 fl in
  exists nv s2,
    let cb := handleError_cb keep_error (lazyRouter sample_methods this None)
                "onLoad" (Some 0) nv in
    bound_next nv s2 = normalized keep_error (lazyRouter sample_methods this None)
                         "onLoad" next
    /\ files s2 !! 0 = Some (record_verb "onLoad" fl)
    /\ trace s2 = trace s ++ [EvDebug "onLoad" (File.basename fl);
                              EvEmit (_name this) "onLoad" (PFile 0)] ++ fst run
    /\ match snd run with
       | Some e =>
           handle keep_error sample_methods this "onLoad" 0 next s
           = cb (ArgsErr e) s2
           /\ forall p,
               handle keep_error sample_methods (with_prop p this) "onLoad" 0 next s
               = handle keep_error sample_methods this "onLoad" 0 next s
       | None =>
           fst run = map (fun m => EvMiddleware (mw_id m) 0)
                       (matching (the_router sample_methods
                                    (lazyRouter sample_methods this None))
                          (File.path fl) "onLoad")
           /\ handle keep_error sample_methods this "onLoad" 0 next s
              = ch "onLoad" 0 (VClosure cb) s2
       end.
Proof.
  apply (C2_host_phase_before_collection keep_error sample_methods
           (templates_host keep_error sample_methods
              [("onLoad", passes 1)] [("onLoad", passes 2)])
           "onLoad" 0 (VData (JFunction cb7)) (heap (a_md_in "pages"))
           (a_md_in "pages") (Options.mk None None (Some "pages")) "pages"
           (handle keep_error sample_methods (pages [("onLoad", passes 2)])));
    try reflexivity.
  discriminate.
Defined.

(** The collections of the sample host keep both records: they run this
    plugin's [handle]. *)
Lemma sample_collections_keep_recorded ms cs v f :
  collections_keep (recorded v f)
    (templates_host keep_error sample_methods ms cs) v f.
Proof.
  intros name ch g Hp Hg. simpl in Hp.
  destruct (String.eqb name "pages"); [|discriminate].
  injection Hp as <-. now apply plugin_keeps_recorded.
Qed.

Lemma sample_collections_keep_handled ms cs v f :
  collections_keep (handled_in v f)
    (templates_host keep_error sample_methods ms cs) v f.
Proof.
  intros name ch g Hp Hg. simpl in Hp.
  destruct (String.eqb name "pages"); [|discriminate].
  injection Hp as <-. now apply plugin_keeps_handled_in.
Qed.

Lemma C6_witness :
  let this := templates_host keep_error sample_methods
                [("onLoad", passes 1)] [("onLoad", passes 2)] in
  let s' := final (handle keep_error sample_methods this "onLoad" 0
                     (VData (JFunction cb7)) (heap (a_md_in "pages"))) in
  exists fl' o hs,
    files s' !! 0 = Some fl' /\ File.options fl' = Some o /\
    Options.method o = Some "onLoad" /\ Options.handled o = Some hs /\
    In "onLoad" hs.
Proof.
  apply (C6_handle_records_verb keep_error sample_methods
           (templates_host keep_error sample_methods
              [("onLoad", passes 1)] [("onLoad", passes 2)])
           "onLoad" 0 (VData (JFunction cb7)) (heap (a_md_in "pages")) _
           (a_md_in "pages")).
  - reflexivity.
  - apply value_keeps_data.
  - apply sample_collections_keep_recorded.
  - reflexivity.
Defined.

(** A file with [options], in a collection: the second call skips. *)
Lemma handleOnce_twice_on_pages :
  let this := templates_host keep_error sample_methods
                [("onLoad", passes 1)] [("onLoad", passes 2)] in
  let cb := VData (JFunction cb7) in
  let s := heap (a_md_in "pages") in
  let s1 := final (handleOnce keep_error sample_methods this "onLoad" 0 cb s) in
  (handleOnce keep_error sample_methods this "onLoad" 0 cb s
   = call cb (ArgsOk (Some 0)) s
   \/ exists s0, handleOnce keep_error sample_methods this "onLoad" 0 cb s
                 = handle keep_error sample_methods this "onLoad" 0 cb s0)
  /\ handled_in "onLoad" 0 (files s1)
  /\ handleOnce keep_error sample_methods this "onLoad" 0 cb s1
     = call cb (ArgsOk (Some 0)) s1.
Proof.
  apply (handleOnce_twice_with_options keep_error sample_methods
           (templates_host keep_error sample_methods
              [("onLoad", passes 1)] [("onLoad", passes 2)])
           "onLoad" 0 (VData (JFunction cb7)) (heap (a_md_in "pages"))
           (a_md_in "pages") (Options.mk None None (Some "pages"))).
  - reflexivity.
  - reflexivity.
  - reflexivity.
  - apply value_keeps_data.
  - apply sample_collections_keep_handled.
Defined.

(** A file without [options]: both calls throw and [cb] is not called. *)
Lemma C3_witness :
  let this := plain_host "app" [("onLoad", passes 1)] in
  let cb := VData (JFunction cb7) in
  let s := heap a_md in
  let s1 := final (handleOnce keep_error sample_methods this "onLoad" 0 cb s) in
  handleOnce keep_error sample_methods this "onLoad" 0 cb s
  = Raise (TypeError "Cannot read property 'handled' of undefined") s
  /\ s1 = s
  /\ handleOnce keep_error sample_methods this "onLoad" 0 cb s1
     = Raise (TypeError "Cannot read property 'handled' of undefined") s.
Proof.
  apply (C3_handleOnce_twice_needs_options keep_error sample_methods
           (plain_host "app" [("onLoad", passes 1)]) "onLoad" 0
           (VData (JFunction cb7)) (heap a_md) a_md).
  - reflexivity.
  - reflexivity.
  - apply value_keeps_data.
  - intros name ch g H. discriminate H.
Defined.

Lemma C9_witness :
  handleOnce keep_error sample_methods (plain_host "app" []) "onLoad" 0
    (VData (JFunction cb7)) (heap a_md)
  = Raise (TypeError "Cannot read property 'handled' of undefined") (heap a_md).
Proof.
  apply (C9_handleOnce_without_options_throws keep_error sample_methods
           (plain_host "app" []) "onLoad" 0 (VData (JFunction cb7)) (heap a_md)
           a_md);
    reflexivity.
Defined.

(** [handle] without a callback on a host whose only middleware fails:
    the call returns. *)
Lemma C1_witness :
  handle keep_error sample_methods
    (plain_host "app" [("onLoad", fails 1 0)]) "onLoad" 0 (VData JUndefined)
    (heap a_md)
  = Ret tt
      (mkState {[ 0 := record_verb "onLoad" a_md ]}
         {[ 0 := enrich (plain_host "app" []) "onLoad" 0 a_md
                   "    at render (a.md:1:3)" boom ]}
         []
         [EvDebug "onLoad" "a.md"; EvEmit "app" "onLoad" (PFile 0);
          EvMiddleware 1 0]).
Proof.
  exact (C1_missing_callback_swallows_error keep_error sample_methods
           (plain_host "app" [("onLoad", fails 1 0)]) "onLoad" 0
           (VData JUndefined) (heap a_md) a_md 0 boom
           ("ReferenceError: title is not defined"
            ++ String LF "    at render (a.md:1:3)")%string
           "    at render (a.md:1:3)"
           eq_refl eq_refl eq_refl eq_refl eq_refl eq_refl eq_refl).
Defined.

Lemma success_goes_to_next_witness :
  handleError_cb keep_error (plain_host "app" []) "onLoad" (Some 0)
    (NClosure (host_call cb7)) Args0 (heap a_md)
  = call (VClosure (host_call cb7)) (ArgsOk (Some 0)) (heap a_md).
Proof.
  apply (success_goes_to_next keep_error (plain_host "app" []) "onLoad" (Some 0)
           (NClosure (host_call cb7)) (heap a_md) (VClosure (host_call cb7))
           (heap a_md));
    reflexivity.
Defined.

Lemma no_middleware_is_success_witness :
  let this := plain_host "app" [] in
  let next := VData (JFunction cb7) in
  let s := heap a_md in
  exists s2,
    files s2 = <[0:=record_verb "onLoad" a_md]> (files s)
    /\ errors s2 = errors s
    /\ trace s2 = trace s ++ [EvDebug "onLoad" (File.basename a_md);
                              EvEmit (_name this) "onLoad" (PFile 0)]
    /\ handle keep_error sample_methods this "onLoad" 0 next s
       = call next (ArgsOk (Some 0)) s2.
Proof.
  apply (no_middleware_is_success keep_error sample_methods
           (plain_host "app" []) "onLoad" 0 (VData (JFunction cb7))
           (heap a_md) a_md);
    reflexivity.
Defined.

Lemma handleOnce_falls_back_on_file_next_witness :
  handleOnce keep_error sample_methods (plain_host "app" []) "onLoad" 0
    (VData JUndefined) (heap c_md)
  = call (VData (File.next c_md)) (ArgsOk (Some 0)) (heap c_md).
Proof.
  apply (handleOnce_falls_back_on_file_next keep_error sample_methods
           (plain_host "app" []) "onLoad" 0 (VData JUndefined) (heap c_md) c_md).
  - reflexivity.
  - exists c_md, (Options.mk (Some ["onLoad"]) (Some "onLoad") None), ["onLoad"].
    repeat split. now left.
  - reflexivity.
Defined.

(** ** The sample dispatches, run *)

(** Two-phase dispatch that succeeds: host middleware, then the
    collection, then the callback. *)
Example two_phase_trace :
  trace (final (handle keep_error sample_methods
                  (templates_host keep_error sample_methods
                     [("onLoad", passes 1)] [("onLoad", passes 2)])
                  "onLoad" 0 (VData (JFunction cb7)) (heap (a_md_in "pages"))))
  = [EvDebug "onLoad" "a.md"; EvEmit "app" "onLoad" (PFile 0); EvMiddleware 1 0;
     EvDebug "onLoad" "a.md"; EvEmit "pages" "onLoad" (PFile 0); EvMiddleware 2 0;
     EvCall 7 (ArgsOk (Some 0))].
Proof. vm_compute. reflexivity. Qed.

(** Two-phase dispatch whose host middleware fails: the callback gets the
    error and the collection does not show up. *)
Example two_phase_host_error_trace :
  trace (final (handle keep_error sample_methods
                  (templates_host keep_error sample_methods
                     [("onLoad", fails 1 0); ("onLoad", passes 3)]
                     [("onLoad", passes 2)])
                  "onLoad" 0 (VData (JFunction cb7)) (heap (a_md_in "pages"))))
  = [EvDebug "onLoad" "a.md"; EvEmit "app" "onLoad" (PFile 0); EvMiddleware 1 0;
     EvCall 7 (ArgsErr 0)].
Proof. vm_compute. reflexivity. Qed.

(** The sample error twice through one callback: [next(err)], then
    [next()], and one enrichment. *)
Example two_passes :
  (let* cb := handleError keep_error (plain_host "app" []) "onLoad" (Some 0)
                (VData (JFunction cb7)) in
   let* _ := cb (ArgsErr 0) in
   cb (ArgsErr 0)) (heap a_md)
  = Ret tt
      (mkState {[ 0 := a_md ]}
         {[ 0 := enrich (plain_host "app" []) "onLoad" 0 a_md
                   "    at render (a.md:1:3)" boom ]}
         [JFunction cb7]
         [EvCall 7 (ArgsErr 0); EvCall 7 Args0]).
Proof. vm_compute. reflexivity. Qed.

(** A stack of one line: the enrichment throws, the error stays marked. *)
Example single_line_stack_throws :
  handleError_cb keep_error (plain_host "app" []) "onLoad" (Some 0)
    (NClosure (host_call cb7)) (ArgsErr 0) (heap_with a_md one_liner [])
  = Raise (TypeError "Cannot read property 'trim' of undefined")
      (heap_with a_md (Err.set_handled true one_liner) []).
Proof. vm_compute. reflexivity. Qed.

(** [handleOnce] twice on the sample host: one dispatch, then
    [callback(null, file)] alone. *)
Example handleOnce_twice_trace :
  trace (repeat_call 2
           (handleOnce keep_error sample_methods
              (plain_host "app" [("onLoad", passes 1)]) "onLoad" 0
              (VData (JFunction cb7)))
           (heap b_md))
  = [EvDebug "onLoad" "b.md"; EvEmit "app" "onLoad" (PFile 0); EvMiddleware 1 0;
     EvCall 7 (ArgsOk (Some 0)); EvCall 7 (ArgsOk (Some 0))].
Proof. vm_compute. reflexivity. Qed.

(** ** The further properties on the sample inputs *)

Lemma handle_writes_only_options_witness :
  let this := plain_host "app" [("onLoad", passes 1)] in
  let next := VData (JFunction cb7) in
  let s := heap b_md in
  files (final (handle keep_error sample_methods this "onLoad" 0 next s))
  = <[0:=record_verb "onLoad" b_md]> (files s)
  /\ File.path (record_verb "onLoad" b_md) = File.path b_md
  /\ File.basename (record_verb "onLoad" b_md) = File.basename b_md
  /\ File.content (record_verb "onLoad" b_md) = File.content b_md
  /\ File.data (record_verb "onLoad" b_md) = File.data b_md
  /\ File.next (record_verb "onLoad" b_md) = File.next b_md
  /\ forall f', f' <> 0 ->
       files (final (handle keep_error sample_methods this "onLoad" 0 next s)) !! f'
       = files s !! f'.
Proof.
  apply (handle_writes_only_options keep_error sample_methods
           (plain_host "app" [("onLoad", passes 1)]) "onLoad" 0
           (VData (JFunction cb7)) (heap b_md) b_md).
  - reflexivity.
  - reflexivity.
  - apply writes_no_file_data.
Defined.

Lemma handle_each_appends_in_order_witness :
  let this := plain_host "app" [("onLoad", passes 1)] in
  exists fl',
    files (handle_each keep_error sample_methods this
             (["onLoad"; "preRender"; "onLoad"] ++ ["postRender"]) 0
             (VData (JFunction cb7)) (heap c_md)) !! 0 = Some fl'
    /\ handled_of fl'
       = handled_of c_md ++ ["onLoad"; "preRender"; "onLoad"] ++ ["postRender"]
    /\ (o ← File.options fl'; Options.method o) = Some "postRender".
Proof.
  apply (handle_each_appends_in_order keep_error sample_methods
           (plain_host "app" [("onLoad", passes 1)])
           ["onLoad"; "preRender"; "onLoad"] "postRender" 0
           (VData (JFunction cb7)) (heap c_md) c_md).
  - reflexivity.
  - reflexivity.
  - apply writes_no_file_data.
Defined.

Lemma handleOnce_is_handle_on_new_verb_witness :
  let this := plain_host "app" [("onLoad", passes 1)] in
  handleOnce keep_error sample_methods this "onLoad" 0 (VData (JFunction cb7))
    (heap b_md)
  = handle keep_error sample_methods this "onLoad" 0 (VData (JFunction cb7))
      (heap b_md).
Proof.
  apply (handleOnce_is_handle_on_new_verb keep_error sample_methods
           (plain_host "app" [("onLoad", passes 1)]) "onLoad" 0
           (VData (JFunction cb7)) (heap b_md) b_md (Options.mk None None None));
    reflexivity.
Defined.

Lemma handleOnce_each_keeps_handled_duplicate_free_witness :
  let this := plain_host "app" [("onLoad", passes 1)] in
  let vs := ["preRender"; "onLoad"; "preRender"; "postRender"] in
  exists fl',
    files (handleOnce_each keep_error sample_methods this vs 0
             (VData (JFunction cb7)) (heap c_md)) !! 0 = Some fl'
    /\ handled_of fl' = fold_left add_once vs (handled_of c_md)
    /\ (NoDup (handled_of c_md) -> NoDup (handled_of fl')).
Proof.
  apply (handleOnce_each_keeps_handled_duplicate_free keep_error sample_methods
           (plain_host "app" [("onLoad", passes 1)])
           ["preRender"; "onLoad"; "preRender"; "postRender"] 0
           (VData (JFunction cb7)) (heap c_md) c_md
           (Options.mk (Some ["onLoad"]) (Some "onLoad") None)).
  - reflexivity.
  - reflexivity.
  - reflexivity.
  - apply writes_no_file_data.
Defined.

Lemma handled_error_reaches_callback_bare_witness :
  let this := plain_host "app" [("onLoad", fails 1 0)] in
  let next := VData (JFunction cb7) in
  let s := heap_with a_md seen [] in
  exists s2,
    handle keep_error sample_methods this "onLoad" 0 next s = call next Args0 s2
    /\ files s2 = <[0:=record_verb "onLoad" a_md]> (files s)
    /\ errors s2 = errors s
    /\ trace s2 = trace s ++ [EvDebug "onLoad" (File.basename a_md);
                              EvEmit (_name this) "onLoad" (PFile 0)]
                    ++ fst (host_phase sample_methods this "onLoad" 0 a_md).
Proof.
  apply (handled_error_reaches_callback_bare keep_error sample_methods
           (plain_host "app" [("onLoad", fails 1 0)]) "onLoad" 0
           (VData (JFunction cb7)) (heap_with a_md seen []) a_md 0 seen);
    reflexivity.
Defined.

Lemma two_phase_records_verb_twice_witness :
  let this := templates_host keep_error sample_methods
                [("onLoad", passes 1)] [("onLoad", passes 2)] in
  let fl := a_md_in "pages" in
  files (final (handle keep_error sample_methods this "onLoad" 0
                  (VData (JFunction cb7)) (heap fl)))
  = <[0:=record_verb "onLoad" (record_verb "onLoad" fl)]> (files (heap fl))
  /\ handled_of (record_verb "onLoad" (record_verb "onLoad" fl))
     = handled_of fl ++ ["onLoad"; "onLoad"].
Proof.
  apply (two_phase_records_verb_twice keep_error sample_methods
           (templates_host keep_error sample_methods
              [("onLoad", passes 1)] [("onLoad", passes 2)])
           (pages [("onLoad", passes 2)]) "onLoad" 0 (VData (JFunction cb7))
           (heap (a_md_in "pages")) (a_md_in "pages")
           (Options.mk None None (Some "pages")) "pages");
    try reflexivity.
  - discriminate.
  - apply writes_no_file_data.
Defined.

Lemma collection_error_reaches_callback_bare_witness :
  let this := templates_host keep_error sample_methods
                [("onLoad", passes 1)] [("onLoad", fails 2 0)] in
  let c := pages [("onLoad", fails 2 0)] in
  let fl := a_md_in "pages" in
  let next := VData (JFunction cb7) in
  let s := heap_with fl plain_boom [] in
  exists s',
    handle keep_error sample_methods this "onLoad" 0 next s = call next Args0 s'
    /\ files s' = <[0:=record_verb "onLoad" (record_verb "onLoad" fl)]> (files s)
    /\ errors s'
       = <[0:=enrich c "onLoad" 0 fl "    at render (a.md:1:3)" plain_boom]>
           (errors s).
Proof.
  apply (collection_error_reaches_callback_bare keep_error sample_methods
           (templates_host keep_error sample_methods
              [("onLoad", passes 1)] [("onLoad", fails 2 0)])
           (pages [("onLoad", fails 2 0)]) "onLoad" 0 (VData (JFunction cb7))
           (heap_with (a_md_in "pages") plain_boom []) (a_md_in "pages")
           (Options.mk None None (Some "pages")) "pages" 0 plain_boom
           ("Error: no such partial"
            ++ String LF "    at render (a.md:1:3)")%string);
    try reflexivity.
  discriminate.
Defined.

Lemma callback_keeps_first_file_next_witness :
  let app := plain_host "app" [] in
  let s := heap_with b_md boom [JUndefined] in
  handleError_cb keep_error app "onLoad" (Some 0) (NCell 0) Args0 s
  = after_guard keep_error app "onLoad" (Some 0) (VData (JFunction cb7)) Args0
      (with_cells (<[0:=JFunction cb7]> (cells s)) s)
  /\ cells (final (handleError_cb keep_error app "onLoad" (Some 0) (NCell 0)
                     Args0 s)) !! 0
     = Some (JFunction cb7)
  /\ forall a' s2,
       cells s2 !! 0 = Some (JFunction cb7) ->
       handleError_cb keep_error app "onLoad" (Some 0) (NCell 0) a' s2
       = after_guard keep_error app "onLoad" (Some 0) (VData (JFunction cb7))
           a' s2.
Proof.
  apply (callback_keeps_first_file_next keep_error (plain_host "app" [])
           "onLoad" 0 0 Args0 (heap_with b_md boom [JUndefined]) b_md cb7);
    try reflexivity.
  simpl. lia.
Defined.

Lemma handleOnce_after_handle_skips_witness :
  let this := templates_host keep_error sample_methods
                [("onLoad", passes 1)] [("onLoad", passes 2)] in
  let cb := VData (JFunction cb7) in
  let s1 := final (handle keep_error sample_methods this "onLoad" 0
                     (VData JUndefined) (heap (a_md_in "pages"))) in
  handleOnce keep_error sample_methods this "onLoad" 0 cb s1
  = call cb (ArgsOk (Some 0)) s1.
Proof.
  apply (handleOnce_after_handle_skips keep_error sample_methods
           (templates_host keep_error sample_methods
              [("onLoad", passes 1)] [("onLoad", passes 2)])
           "onLoad" 0 (VData JUndefined) (VData (JFunction cb7))
           (heap (a_md_in "pages")) (a_md_in "pages")).
  - reflexivity.
  - reflexivity.
  - apply value_keeps_data.
  - apply sample_collections_keep_handled.
Defined.
